(** * Databricks metadata discovery ([granulate_utils/metadata/databricks_client.py])

    A shallow embedding of [DBXWebUIEnvWrapper] and [get_name_from_metadata].

    - A Python [str] is a Rocq [string]; its characters are read as the code
      points U+0000 .. U+00FF, on which [str.lower], [str.splitlines] and the
      regular expression class [\d] are given exactly.
    - Values decoded from JSON are dynamically typed in the source, so they
      are kept as a [json] tree; Python's [None] is [JNull].  Operations on
      them raise where Python raises.
    - Exceptions are values of [exn]; code that may raise returns a [res].
    - File, HTTP, clock, sleeping and logging go through an explicit [state]
      driven by an environment oracle [Env].  The clock counts nanoseconds;
      it advances in blocking calls only, by a duration the oracle chooses,
      and a sleep lasts at least the time asked for.
    - The [while] loop of [extract_relevant_metadata] takes fuel; it is shown
      to end within [MAX_ATTEMPTS] passes whatever the environment does. *)

From Stdlib Require Import ZArith NArith List String Ascii Bool Lia DecimalString.
Import ListNotations.
Open Scope string_scope.

(** ** Module constants (source lines 17-45) *)

Definition HOST_KEY_NAME : string := "*.sink.ganglia.host".
Definition DATABRICKS_METRICS_PROP_PATH : string := "/databricks/spark/conf/metrics.properties".
Definition CLUSTER_USAGE_ALL_TAGS_PROP : string := "spark.databricks.clusterUsageTags.clusterAllTags".
Definition CLUSTER_USAGE_CLUSTER_NAME_PROP : string := "spark.databricks.clusterUsageTags.clusterName".
Definition CLUSTER_USAGE_RELEVANT_TAGS_PROPS : list string :=
  [ "spark.databricks.clusterUsageTags.cloudProvider";
    "spark.databricks.clusterUsageTags.clusterAvailability";
    "spark.databricks.clusterUsageTags.clusterCreator";
    "spark.databricks.clusterUsageTags.clusterFirstOnDemand";
    "spark.databricks.clusterUsageTags.clusterMaxWorkers";
    "spark.databricks.clusterUsageTags.clusterMinWorkers";
    "spark.databricks.clusterUsageTags.clusterNodeType";
    "spark.databricks.clusterUsageTags.clusterScalingType";
    "spark.databricks.clusterUsageTags.clusterSizeType";
    "spark.databricks.clusterUsageTags.clusterSku";
    "spark.databricks.clusterUsageTags.clusterSpotBidMaxPrice";
    "spark.databricks.clusterUsageTags.clusterTargetWorkers";
    "spark.databricks.clusterUsageTags.clusterWorkers";
    "spark.databricks.clusterUsageTags.driverNodeType" ].
Definition DATABRICKS_REDACTED_STR : string := "redacted".
Definition SPARKUI_APPS_URL (addr : string) : string :=
  "http://" ++ addr ++ "/api/v1/applications".
Definition REQUEST_TIMEOUT : Z := 5.
Definition JOB_NAME_KEY : string := "RunName".
Definition CLUSTER_NAME_KEY : string := "ClusterName".
Definition DEFAULT_WEBUI_PORT : Z := 40001.
Definition DATABRICKS_JOBNAME_TIMEOUT_S : Z := 2 * 60.
Definition RETRY_INTERVAL_S : Z := 1.

(** ** Python string operations used by the module *)

Module PyStr.

Definition code (c : ascii) : N := N_of_ascii c.

(** Code points below 256 that [str.lower] changes: A-Z and the Latin-1
    capitals U+00C0 .. U+00DE except the multiplication sign U+00D7. *)
Definition is_upper (c : ascii) : bool :=
  let n := code c in
  ((65 <=? n) && (n <=? 90) || (192 <=? n) && (n <=? 222) && negb (n =? 215))%N.

Definition lower_char (c : ascii) : ascii :=
  if is_upper c then ascii_of_N (code c + 32) else c.

(** [s.lower()] *)
Fixpoint lower (s : string) : string :=
  match s with
  | EmptyString => EmptyString
  | String c t => String (lower_char c) (lower t)
  end.

(** [s.replace(old, new)] for one-character [old] and [new]. *)
Fixpoint replace (old new : ascii) (s : string) : string :=
  match s with
  | EmptyString => EmptyString
  | String c t => String (if Ascii.eqb c old then new else c) (replace old new t)
  end.

(** [needle in hay] on two strings. *)
Fixpoint contains (needle hay : string) : bool :=
  String.prefix needle hay ||
  match hay with
  | EmptyString => false
  | String _ t => contains needle t
  end.

(** The regular expression class [\d] below U+0100. *)
Definition is_digit (c : ascii) : bool :=
  let n := code c in ((48 <=? n) && (n <=? 57))%N.

(** Longest run of digits at the head of [s], and what follows it. *)
Fixpoint span_digits (s : string) : nat * string :=
  match s with
  | EmptyString => (O, EmptyString)
  | String c t =>
      if is_digit c then let (n, r) := span_digits t in (S n, r) else (O, s)
  end.

(** Length of the match of [RUN_ID_REGEX = "run-\d+-"] anchored at the head
    of [s].  [\d+] is greedy and the character after the digits must be a
    dash, so no other split of the digits can match. *)
Definition run_id_match (s : string) : option nat :=
  match s with
  | String "r" (String "u" (String "n" (String "-" t))) =>
      match span_digits t with
      | (S n, String "-" _) => Some (4 + S n + 1)%nat
      | _ => None
      end
  | _ => None
  end.

(** [re.sub(RUN_ID_REGEX, "", s)]: scan left to right, drop every match,
    resume after it; [skip] counts the characters of the current match
    still to be dropped. *)
Fixpoint re_sub_go (skip : nat) (s : string) : string :=
  match s with
  | EmptyString => EmptyString
  | String c t =>
      match skip with
      | S k => re_sub_go k t
      | O =>
          match run_id_match s with
          | Some n => re_sub_go (pred n) t
          | None => String c (re_sub_go O t)
          end
      end
  end.
Definition re_sub_run_id (s : string) : string := re_sub_go O s.

(** Line boundaries of [str.splitlines] below U+0100:
    LF, VT, FF, CR, FS, GS, RS and NEL. *)
Definition is_linebreak (c : ascii) : bool :=
  let n := code c in
  ((10 <=? n) && (n <=? 13) || (28 <=? n) && (n <=? 30) || (n =? 133))%N.

(** [s.splitlines()]; CR LF is one boundary; no final empty line. *)
Fixpoint splitlines (s : string) : list string :=
  match s with
  | EmptyString => []
  | String c t =>
      if is_linebreak c then
        match c, t with
        | "013"%char, String "010"%char t' => EmptyString :: splitlines t'
        | _, _ => EmptyString :: splitlines t
        end
      else
        match splitlines t with
        | [] => [String c EmptyString]
        | l :: ls => String c l :: ls
        end
  end.

(** [line.split("=", 1)]: one or two pieces. *)
Fixpoint split_eq1 (line : string) : list string :=
  match line with
  | EmptyString => [EmptyString]
  | String c t =>
      if Ascii.eqb c "=" then [EmptyString; t]
      else match split_eq1 t with
           | [a] => [String c a]
           | a :: rest => String c a :: rest
           | [] => [String c EmptyString]
           end
  end.

(** [str(n)] for a non-negative integer. *)
Definition of_Z (z : Z) : string := NilZero.string_of_uint (N.to_uint (Z.to_N z)).

End PyStr.

(** ** Python values, exceptions and dictionaries *)

(** A value decoded from JSON.  [JNull] is Python's [None]; a number keeps
    its literal, which the module never inspects.  [JObj m] is the [dict]
    obtained by inserting the members of [m] from left to right. *)
Set Warnings "-register-all".
Inductive json : Type :=
| JNull
| JBool (b : bool)
| JNum (literal : string)
| JStr (s : string)
| JArr (items : list json)
| JObj (members : list (string * json)).

(** A Python [dict] under construction, as the list of its insertions, most
    recent first.  The module only looks bindings up by key, tests
    membership and emptiness and walks the keys, none of which sees a
    shadowed binding. *)
Definition pydict : Type := list (json * json).

(** A piece of an f-string: literal text, [repr] of a value ([{x=}] prints
    the name, an equals sign and the [repr]), [str] of a value, [repr] of a
    dictionary. *)
Inductive msg_part : Type :=
| Lit (s : string)
| Repr (v : json)
| Fmt (v : json)
| ReprDict (d : pydict).

(** Modelled from the spec: [DatabricksJobNameDiscoverException] is declared
    in [granulate_utils/exceptions.py], which is not among the sources; it is
    the terminal discovery failure, an exception that carries a message.
    [RequestException] stands for [requests.exceptions.RequestException] and
    its subclasses, the other constructors for Python's built-in exceptions,
    [OtherException] for any other subclass of [Exception]. *)
Inductive exn : Type :=
| DatabricksJobNameDiscoverException (msg : list msg_part)
| RequestException
| KeyError (key : json)
| TypeError
| ValueError
| AttributeError
| IndexError
| AssertionError (msg : string)
| OSError
| OtherException.

Inductive res (A : Type) : Type :=
| Ok (a : A)
| Raise (e : exn).
Arguments Ok {A} a.
Arguments Raise {A} e.

Definition rbind {A B} (r : res A) (k : A -> res B) : res B :=
  match r with
  | Ok a => k a
  | Raise e => Raise e
  end.

Declare Scope res_scope.
Delimit Scope res_scope with res.
Notation "x <- r ;; k" := (rbind r (fun x => k))
  (at level 61, r at next level, right associativity) : res_scope.

Module Py.

Definition is_none (v : json) : bool :=
  match v with JNull => true | _ => false end.

Definition is_str (s : string) (v : json) : bool :=
  match v with JStr s' => String.eqb s' s | _ => false end.

(** Values that can be dictionary keys. *)
Definition hashable (v : json) : bool :=
  match v with JArr _ | JObj _ => false | _ => true end.

(** Binding of a string key in the members of a JSON object: the last
    insertion wins. *)
Fixpoint obj_get (m : list (string * json)) (k : string) : option json :=
  match m with
  | [] => None
  | (k', v) :: t =>
      match obj_get t k with
      | Some r => Some r
      | None => if String.eqb k' k then Some v else None
      end
  end.

(** The keys of a JSON object, each once, in order of first insertion. *)
Fixpoint obj_keys (seen : list string) (m : list (string * json)) : list string :=
  match m with
  | [] => []
  | (k, _) :: t =>
      if existsb (String.eqb k) seen then obj_keys seen t
      else k :: obj_keys (k :: seen) t
  end.

(** Binding of a string key in a dictionary. *)
Fixpoint dict_get (d : pydict) (k : string) : option json :=
  match d with
  | [] => None
  | (k', v) :: t => if is_str k k' then Some v else dict_get t k
  end.

(** [d.get(k)] *)
Definition dict_get_default (d : pydict) (k : string) : json :=
  match dict_get d k with Some v => v | None => JNull end.

(** [d[k] = v] *)
Definition dict_set (d : pydict) (k : string) (v : json) : pydict :=
  (JStr k, v) :: d.

(** [d.update(pairs)], the pairs given in insertion order. *)
Definition dict_update (d : pydict) (pairs : list (json * json)) : pydict :=
  (rev pairs ++ d)%list.

(** The one-character strings of a string. *)
Fixpoint chars (s : string) : list json :=
  match s with
  | EmptyString => []
  | String c t => JStr (String c EmptyString) :: chars t
  end.

(** [iter(v)]: what a [for] loop or a constructor walks over. *)
Definition iter (v : json) : res (list json) :=
  match v with
  | JArr l => Ok l
  | JObj m => Ok (map JStr (obj_keys [] m))
  | JStr s => Ok (chars s)
  | JNull | JBool _ | JNum _ => Raise TypeError
  end.

(** [needle in v] *)
Definition contains (needle : string) (v : json) : res bool :=
  match v with
  | JStr s => Ok (PyStr.contains needle s)
  | JArr l => Ok (existsb (is_str needle) l)
  | JObj m => Ok (existsb (fun kv => String.eqb (fst kv) needle) m)
  | JNull | JBool _ | JNum _ => Raise TypeError
  end.

(** [len(v)] *)
Definition len (v : json) : res nat :=
  match v with
  | JArr l => Ok (List.length l)
  | JObj m => Ok (List.length (obj_keys [] m))
  | JStr s => Ok (String.length s)
  | JNull | JBool _ | JNum _ => Raise TypeError
  end.

(** [v[0]] *)
Definition getitem0 (v : json) : res json :=
  match v with
  | JArr (x :: _) => Ok x
  | JArr [] => Raise IndexError
  | JStr (String c _) => Ok (JStr (String c EmptyString))
  | JStr EmptyString => Raise IndexError
  | JObj _ => Raise (KeyError (JNum "0"))
  | JNull | JBool _ | JNum _ => Raise TypeError
  end.

(** [v[k]] for a string [k] *)
Definition getitem (v : json) (k : string) : res json :=
  match v with
  | JObj m =>
      match obj_get m k with
      | Some x => Ok x
      | None => Raise (KeyError (JStr k))
      end
  | _ => Raise TypeError
  end.

(** [v.get(k)] *)
Definition get (v : json) (k : string) : res json :=
  match v with
  | JObj m => Ok (match obj_get m k with Some x => x | None => JNull end)
  | _ => Raise AttributeError
  end.

(** One element of the argument of [dict(...)]: it must yield exactly two
    items, the first of them hashable. *)
Definition pair_of (e : json) : res (json * json) :=
  (items <- iter e ;;
   match items with
   | [k; v] => if hashable k then Ok (k, v) else Raise TypeError
   | _ => Raise ValueError
   end)%res.

Fixpoint pairs_of (l : list json) : res (list (json * json)) :=
  match l with
  | [] => Ok []
  | e :: t => (p <- pair_of e ;; ps <- pairs_of t ;; Ok (p :: ps))%res
  end.

(** [dict(v)]: a mapping is copied, anything else is walked as a sequence
    of pairs. *)
Definition dict (v : json) : res pydict :=
  match v with
  | JObj m => Ok (rev (map (fun kv => (JStr (fst kv), snd kv)) m))
  | _ => (l <- iter v ;; ps <- pairs_of l ;; Ok (rev ps))%res
  end.

(** [v.replace(" ", "-").lower()]; only [str] has [replace]. *)
Definition replace_lower (v : json) : res json :=
  match v with
  | JStr s => Ok (JStr (PyStr.lower (PyStr.replace " " "-" s)))
  | _ => Raise AttributeError
  end.

(** [re.sub(RUN_ID_REGEX, "", v)]; only [str] is accepted. *)
Definition re_sub_run_id (v : json) : res json :=
  match v with
  | JStr s => Ok (JStr (PyStr.re_sub_run_id s))
  | _ => Raise TypeError
  end.

End Py.

(** ** The world outside the module *)

Inductive loglevel : Type := DEBUG | INFO | WARNING | EXCEPTION.

(** What the module does to the outside, in the order it happens. *)
Inductive event : Type :=
| EvIsFile (path : string) (found : bool)
| EvOpen (path : string)
| EvGet (url : string) (timeout : Z)
| EvSleep (seconds : Z)
| EvLog (level : loglevel) (msg : string).

(** [clock] is [time.monotonic()] in nanoseconds; [trace] holds the events
    so far, most recent first. *)
Record world : Type := mkWorld { clock : Z; trace : list event }.

(** A [requests.Response]: [json_body] is what [response.json()] returns,
    [None] when it raises. *)
Record Response : Type := mkResponse {
  status_code : Z;
  text : string;
  json_body : option json
}.

(** Outcome of [requests.get]: a response, a [RequestException] (connection
    refused, timeout, ...), or some other exception. *)
Inductive http_outcome : Type :=
| Responded (r : Response)
| RequestFailed
| RequestCrashed.

(** The collaborators of the module.  Each answer may depend on the time and
    on everything that happened before.  [json_loads] is [json.loads]
    ([None] when it raises), [str_of] is [str] on values other than [str],
    [elapsed_ns] is the time a blocking call takes (for a sleep: the time it
    oversleeps). *)
Record Env : Type := mkEnv {
  os_path_isfile : world -> string -> bool;
  open_read : world -> string -> option string;
  requests_get : world -> string -> Z -> http_outcome;
  json_loads : string -> option json;
  str_of : json -> string;
  elapsed_ns : world -> N
}.

(** The fields of a [DBXWebUIEnvWrapper] the methods read or write, with the
    world they run in. *)
Record state : Type := mkState {
  st_world : world;
  enable_retries : bool;
  _apps_url : option string
}.

Definition NS_PER_S : Z := 1000000000.

(** A computation that reads and changes the state and may raise. *)
Definition M (A : Type) : Type := state -> res A * state.

Definition ret {A} (a : A) : M A := fun st => (Ok a, st).
Definition raise {A} (e : exn) : M A := fun st => (Raise e, st).
Definition bind {A B} (m : M A) (k : A -> M B) : M B :=
  fun st =>
    match m st with
    | (Ok a, st') => k a st'
    | (Raise e, st') => (Raise e, st')
    end.
Definition lift {A} (r : res A) : M A := fun st => (r, st).

(** [try: m except Exception as e: h e] *)
Definition try_except {A} (m : M A) (h : exn -> M A) : M A :=
  fun st =>
    match m st with
    | (Ok a, st') => (Ok a, st')
    | (Raise e, st') => h e st'
    end.

Declare Scope m_scope.
Delimit Scope m_scope with M.
Notation "x <- m ;; k" := (bind m (fun x => k))
  (at level 61, m at next level, right associativity) : m_scope.
Notation "m ;; k" := (bind m (fun _ => k))
  (at level 61, right associativity) : m_scope.

(** A blocking call: it is recorded and the clock moves on by [secs] seconds
    plus whatever the environment adds. *)
Definition pass (env : Env) (ev : event) (secs : Z) (st : state) : state :=
  let w := st_world st in
  mkState
    (mkWorld (clock w + secs * NS_PER_S + Z.of_N (elapsed_ns env w)) (ev :: trace w))
    (enable_retries st) (_apps_url st).

(** [self.logger.<level>(msg)] *)
Definition log (level : loglevel) (msg : string) : M unit :=
  fun st =>
    let w := st_world st in
    (Ok tt, mkState (mkWorld (clock w) (EvLog level msg :: trace w))
                    (enable_retries st) (_apps_url st)).

(** [time.sleep(seconds)] *)
Definition time_sleep (env : Env) (seconds : Z) : M unit :=
  fun st => (Ok tt, pass env (EvSleep seconds) seconds st).

(** [os.path.isfile(path)] *)
Definition isfile (env : Env) (path : string) : M bool :=
  fun st =>
    let b := os_path_isfile env (st_world st) path in
    (Ok b, pass env (EvIsFile path b) 0 st).

(** [with open(path) as f: f.read()] *)
Definition read_file (env : Env) (path : string) : M string :=
  fun st =>
    (match open_read env (st_world st) path with
     | Some s => Ok s
     | None => Raise OSError
     end, pass env (EvOpen path) 0 st).

(** [str(v)] as an f-string field prints it. *)
Definition fmt (env : Env) (v : json) : string :=
  match v with JStr s => s | _ => str_of env v end.

(** ** [DBXWebUIEnvWrapper] *)

Open Scope m_scope.

(** [_request_get] (lines 63-66).  [raise_for_status] raises [HTTPError], a
    subclass of [RequestException], on a status from 400 to 599. *)
Definition raise_for_status (r : Response) : res Response :=
  if ((400 <=? status_code r) && (status_code r <? 600))%Z
  then Raise RequestException else Ok r.

Definition _request_get (env : Env) (url : string) : M Response :=
  fun st =>
    (match requests_get env (st_world st) url REQUEST_TIMEOUT with
     | Responded resp => raise_for_status resp
     | RequestFailed => Raise RequestException
     | RequestCrashed => Raise OtherException
     end, pass env (EvGet url REQUEST_TIMEOUT) 0 st).

(** [dict(l)] for the two-piece lists of line 73, most recent first. *)
Definition kv_of (pieces : list string) : res (string * string) :=
  match pieces with
  | [k; v] => Ok (k, v)
  | _ => Raise ValueError
  end.

Fixpoint kvs_of (l : list (list string)) : res (list (string * string)) :=
  match l with
  | [] => Ok []
  | p :: t => (kv <- kv_of p ;; kvs <- kvs_of t ;; Ok (kv :: kvs))%res
  end.

Definition props_dict (l : list (list string)) : res (list (string * string)) :=
  (kvs <- kvs_of l ;; Ok (rev kvs))%res.

Fixpoint props_getitem (d : list (string * string)) (k : string) : res string :=
  match d with
  | [] => Raise (KeyError (JStr k))
  | (k', v) :: t => if String.eqb k' k then Ok v else props_getitem t k
  end.

Definition webui_address_failure (properties : string) : exn :=
  DatabricksJobNameDiscoverException
    [Lit "Failed to get Databricks webui address properties="; Repr (JStr properties)].

(** Lines 72-81 of [get_webui_address], on the text read from the file. *)
Definition webui_address_of (properties : string) : res (option string) :=
  match (d <- props_dict (map PyStr.split_eq1 (PyStr.splitlines properties)) ;;
         props_getitem d HOST_KEY_NAME)%res with
  | Ok host => Ok (Some (host ++ ":" ++ PyStr.of_Z DEFAULT_WEBUI_PORT)%string)
  | Raise (KeyError k) =>
      if Py.is_str HOST_KEY_NAME k then Ok None
      else Raise (webui_address_failure properties)
  | Raise _ => Raise (webui_address_failure properties)
  end.

(** [get_webui_address] (lines 68-81) *)
Definition get_webui_address (env : Env) : M (option string) :=
  properties <- read_file env DATABRICKS_METRICS_PROP_PATH ;;
  lift (webui_address_of properties).

Definition set_apps_url (url : string) : M unit :=
  fun st => (Ok tt, mkState (st_world st) (enable_retries st) (Some url)).

Definition get_apps_url : M (option string) :=
  fun st => (Ok (_apps_url st), st).

Definition get_enable_retries : M bool :=
  fun st => (Ok (enable_retries st), st).

(** [_discover_apps_url] (lines 108-120) *)
Definition _discover_apps_url (env : Env) : M bool :=
  cached <- get_apps_url ;;
  match cached with
  | Some _ => ret true
  | None =>
      web_ui_address <- get_webui_address env ;;
      match web_ui_address with
      | None => ret false
      | Some addr =>
          set_apps_url (SPARKUI_APPS_URL addr) ;;
          log DEBUG "Databricks SparkUI address" ;;
          ret true
      end
  end.

Definition SPARK_STARTING_UP : string :=
  "Spark is starting up. Please wait a while until it's ready".

(** [_spark_apps_json] (lines 122-140); [JNull] is the [None] it returns. *)
Definition _spark_apps_json (env : Env) : M json :=
  cached <- get_apps_url ;;
  match cached with
  | None | Some EmptyString => raise (AssertionError "SparkUI apps url was not discovered")
  | Some apps_url =>
      response <- try_except
                    (resp <- _request_get env apps_url ;; ret (Some resp))
                    (fun e =>
                       match e with
                       | RequestException => ret None
                       | _ => raise e
                       end) ;;
      match response with
      | None => ret JNull
      | Some response =>
          match json_body response with
          | Some apps => ret apps
          | None =>
              if PyStr.contains SPARK_STARTING_UP (text response) then ret JNull
              else raise (DatabricksJobNameDiscoverException
                     [Lit "Failed to parse apps url response, query response.text=";
                      Repr (JStr (text response))])
          end
      end
  end.

(** [_spark_app_env_json] (lines 142-154) *)
Definition _spark_app_env_json (env : Env) (app_id : json) : M json :=
  cached <- get_apps_url ;;
  match cached with
  | None => raise (AssertionError "SparkUI apps url was not discovered")
  | Some apps_url =>
      let env_url := (apps_url ++ "/" ++ fmt env app_id ++ "/environment")%string in
      response <- try_except (_request_get env env_url)
                    (fun _ => raise (DatabricksJobNameDiscoverException
                       [Lit "Environment request failed env_url="; Repr (JStr env_url)])) ;;
      match json_body response with
      | Some e => ret e
      | None => raise (DatabricksJobNameDiscoverException
                  [Lit "Environment request failed response.text=";
                   Repr (JStr (text response))])
      end
  end.

Close Scope m_scope.
Open Scope res_scope.

(** The dictionary comprehension of line 200, as the pairs it inserts. *)
Definition tag_pair (cluster_all_tag : json) : res (json * json) :=
  k <- Py.getitem cluster_all_tag "key" ;;
  v <- Py.getitem cluster_all_tag "value" ;;
  if Py.hashable k then Ok (k, v) else Raise TypeError.

Fixpoint tag_pairs (l : list json) : res (list (json * json)) :=
  match l with
  | [] => Ok []
  | t :: rest => p <- tag_pair t ;; ps <- tag_pairs rest ;; Ok (p :: ps)
  end.

(** [json.loads(v)] inside the [try] of lines 194-197: a [TypeError] on a
    value that is not a [str] and a decoding error are both re-raised as the
    discovery failure. *)
Definition loads_all_tags (env : Env) (cluster_all_tags_value : json) : res json :=
  match
    match cluster_all_tags_value with
    | JStr s => json_loads env s
    | _ => None
    end
  with
  | Some j => Ok j
  | None => Raise (DatabricksJobNameDiscoverException
              [Lit "Failed to parse "; Fmt cluster_all_tags_value])
  end.

(** Lines 214-218: the walk over the keys of [spark_properties], oldest
    first; [todo] is what remains to be visited. *)
Fixpoint add_relevant_tags (spark_properties : pydict) (todo : list (json * json))
    (result : pydict) : res pydict :=
  match todo with
  | [] => Ok result
  | (key, _) :: rest =>
      match key with
      | JStr k =>
          if existsb (String.eqb k) CLUSTER_USAGE_RELEVANT_TAGS_PROPS then
            let val := Py.dict_get_default spark_properties k in
            redacted <- Py.contains DATABRICKS_REDACTED_STR val ;;
            add_relevant_tags spark_properties rest
              (if redacted then result else Py.dict_set result k val)
          else add_relevant_tags spark_properties rest result
      | _ => add_relevant_tags spark_properties rest result
      end
  end.

(** Lines 189-211: the tags from the all-tags property, else the cluster
    name, else the failure. *)
Definition primary_tags (env : Env) (spark_properties : pydict) : res pydict :=
  let cluster_all_tags_value := Py.dict_get_default spark_properties CLUSTER_USAGE_ALL_TAGS_PROP in
  use_all_tags <-
    (if Py.is_none cluster_all_tags_value then Ok false
     else redacted <- Py.contains DATABRICKS_REDACTED_STR cluster_all_tags_value ;;
          Ok (negb redacted)) ;;
  if use_all_tags : bool then
    cluster_all_tags_value_json <- loads_all_tags env cluster_all_tags_value ;;
    tags <- Py.iter cluster_all_tags_value_json ;;
    pairs <- tag_pairs tags ;;
    Ok (Py.dict_update [] pairs)
  else
    let cluster_name_value := Py.dict_get_default spark_properties CLUSTER_USAGE_CLUSTER_NAME_PROP in
    if Py.is_none cluster_name_value then
      Raise (DatabricksJobNameDiscoverException
        [Lit ("Failed to extract " ++ CLUSTER_USAGE_ALL_TAGS_PROP ++ " or "
              ++ CLUSTER_USAGE_CLUSTER_NAME_PROP ++ " from spark_properties=");
         ReprDict spark_properties])
    else Ok (Py.dict_set [] CLUSTER_NAME_KEY cluster_name_value).

(** Lines 189-218: [result] as it stands before [_apply_pattern]. *)
Definition collect_tags (env : Env) (spark_properties : pydict) : res pydict :=
  result <- primary_tags env spark_properties ;;
  add_relevant_tags spark_properties (rev spark_properties) result.

(** [_apply_pattern] (lines 222-237) *)
Definition _apply_pattern (metadata : pydict) : res pydict :=
  metadata <-
    match Py.dict_get metadata JOB_NAME_KEY with
    | Some v => v' <- Py.replace_lower v ;; Ok (Py.dict_set metadata JOB_NAME_KEY v')
    | None => Ok metadata
    end ;;
  match Py.dict_get metadata CLUSTER_NAME_KEY with
  | Some v =>
      v1 <- Py.re_sub_run_id v ;;
      let metadata := Py.dict_set metadata CLUSTER_NAME_KEY v1 in
      v2 <- Py.replace_lower v1 ;;
      Ok (Py.dict_set metadata CLUSTER_NAME_KEY v2)
  | None => Ok metadata
  end.

(** Lines 189-220 of [_cluster_all_tags_metadata]. *)
Definition tags_metadata (env : Env) (spark_properties : pydict) : res pydict :=
  result <- collect_tags env spark_properties ;;
  _apply_pattern result.

(** Lines 179-220 of [_cluster_all_tags_metadata], from the environment of
    the first application on. *)
Definition metadata_of_env (env : Env) (full_spark_app_env : json) : res pydict :=
  spark_properties <- Py.get full_spark_app_env "sparkProperties" ;;
  if Py.is_none spark_properties then
    Raise (DatabricksJobNameDiscoverException
      [Lit "sparkProperties was not found in full_spark_app_env="; Repr full_spark_app_env])
  else
    match Py.dict spark_properties with
    | Raise _ => Raise (DatabricksJobNameDiscoverException
        [Lit "Failed to parse as dict full_spark_app_env="; Repr full_spark_app_env])
    | Ok spark_properties => tags_metadata env spark_properties
    end.

Close Scope res_scope.

Open Scope m_scope.

(** [_cluster_all_tags_metadata] (lines 156-220) *)
Definition _cluster_all_tags_metadata (env : Env) : M (option pydict) :=
  found <- isfile env DATABRICKS_METRICS_PROP_PATH ;;
  if negb found then ret None else
  discovered <- _discover_apps_url env ;;
  if negb discovered then ret None else
  apps <- _spark_apps_json env ;;
  if Py.is_none apps then ret None else
  n <- lift (Py.len apps) ;;
  if Nat.eqb n 0 then log DEBUG "No apps yet, retrying." ;; ret None else
  app <- lift (Py.getitem0 apps) ;;
  app_id <- lift (Py.getitem app "id") ;;
  full_spark_app_env <- _spark_app_env_json env app_id ;;
  result <- lift (metadata_of_env env full_spark_app_env) ;;
  ret (Some result).

(** How one pass through the body of the [while] of line 86 ends. *)
Inductive flow : Type :=
| Return (r : option pydict)
| Break
| Continue.

(** Truth value of an [Optional[Dict]]: [None] and the empty dictionary are
    false. *)
Definition truthy (d : option pydict) : bool :=
  match d with
  | Some (_ :: _) => true
  | _ => false
  end.

(** Lines 87-102: the [try] statement. *)
Definition attempt (env : Env) : M flow :=
  try_except
    (cluster_all_props <- _cluster_all_tags_metadata env ;;
     if truthy cluster_all_props then
       log INFO "Successfully got relevant cluster tags metadata" ;;
       ret (Return cluster_all_props)
     else
       time_sleep env RETRY_INTERVAL_S ;;
       ret Continue)
    (fun e =>
       match e with
       | DatabricksJobNameDiscoverException _ =>
           log EXCEPTION "Failed to get DBX environment properties" ;;
           ret (Return None)
       | _ =>
           log EXCEPTION "Generic exception was raise during DBX environment properties discovery" ;;
           ret (Return None)
       end).

(** Lines 87-104: the body of the loop. *)
Definition loop_body (env : Env) : M flow :=
  f <- attempt env ;;
  match f with
  | Continue =>
      retries <- get_enable_retries ;;
      if negb retries then ret Break else ret Continue
  | _ => ret f
  end.

(** Lines 105-106 *)
Definition after_loop : M (option pydict) :=
  log INFO "Databricks get DBX environment metadata timeout, continuing..." ;;
  ret None.

(** Lines 86-106: the loop and what follows it; [clock (st_world st)] is
    what [time.monotonic()] returns in [st].  [None] when [fuel] passes
    through the body do not finish the loop. *)
Fixpoint poll (env : Env) (fuel : nat) (start_time : Z) (st : state)
    : option (res (option pydict) * state) :=
  if (clock (st_world st) - start_time <? DATABRICKS_JOBNAME_TIMEOUT_S * NS_PER_S)%Z then
    match fuel with
    | O => None
    | S fuel' =>
        match loop_body env st with
        | (Ok (Return r), st') => Some (Ok r, st')
        | (Ok Break, st') => Some (after_loop st')
        | (Ok Continue, st') => poll env fuel' start_time st'
        | (Raise e, st') => Some (Raise e, st')
        end
    end
  else Some (after_loop st).

(** [extract_relevant_metadata] (lines 83-106) *)
Definition extract_relevant_metadata (env : Env) (fuel : nat) (st : state)
    : option (res (option pydict) * state) :=
  let start_time := clock (st_world st) in
  poll env fuel start_time st.

Close Scope m_scope.

(** [get_name_from_metadata] (lines 240-246), on the [Dict[str, str]] of its
    signature, most recent binding first.  The empty string is false. *)
Fixpoint str_get (metadata : list (string * string)) (k : string) : option string :=
  match metadata with
  | [] => None
  | (k', v) :: t => if String.eqb k' k then Some v else str_get t k
  end.

Definition nonempty (v : option string) : option string :=
  match v with
  | Some (String c t) => Some (String c t)
  | _ => None
  end.

Definition get_name_from_metadata (metadata : list (string * string)) : option string :=
  match nonempty (str_get metadata JOB_NAME_KEY) with
  | Some job_name => Some ("job-" ++ job_name)
  | None =>
      match nonempty (str_get metadata CLUSTER_NAME_KEY) with
      | Some cluster_name => Some cluster_name
      | None => None
      end
  end.

(** ** Concrete environments *)

Module Demo.

Definition LF : string := String "010"%char EmptyString.
Definition quoted (s : string) : string :=
  String "034"%char s ++ String "034"%char EmptyString.

Definition REDACTED_VALUE : string := "*********(redacted)".

(** A metrics file that names the host. *)
Definition metrics_file : string :=
  "*.sink.ganglia.class=org.apache.spark.metrics.sink.GangliaSink" ++ LF ++
  "*.sink.ganglia.host=10.0.0.7" ++ LF ++
  "*.sink.ganglia.port=8649" ++ LF.

Definition apps_url : string := "http://10.0.0.7:40001/api/v1/applications".

(** The text of an all-tags property and the array [json.loads] decodes
    it to. *)
Definition record (k v : json) : json := JObj [("key", k); ("value", v)].
Definition tags_text : string :=
  "[{" ++ quoted "key" ++ ":" ++ quoted "RunName" ++ "," ++
          quoted "value" ++ ":" ++ quoted "My Job 1" ++ "},{" ++
          quoted "key" ++ ":" ++ quoted "ClusterName" ++ "," ++
          quoted "value" ++ ":" ++ quoted "run-123-prod cluster" ++ "},{" ++
          quoted "key" ++ ":" ++ quoted "Vendor" ++ "," ++
          quoted "value" ++ ":" ++ quoted "Databricks" ++ "}]".
Definition tags_json : json :=
  JArr [ record (JStr "RunName") (JStr "My Job 1");
         record (JStr "ClusterName") (JStr "run-123-prod cluster");
         record (JStr "Vendor") (JStr "Databricks") ].

(** An all-tags property with a number for a value. *)
Definition budget_text : string :=
  "[{" ++ quoted "key" ++ ":" ++ quoted "Budget" ++ "," ++
          quoted "value" ++ ":100}]".
Definition budget_json : json :=
  JArr [ record (JStr "Budget") (JNum "100") ].

(** [json.loads] on the two texts above; it raises on anything else. *)
Definition loads (s : string) : option json :=
  if String.eqb s tags_text then Some tags_json
  else if String.eqb s budget_text then Some budget_json
  else None.

Definition respond (body : json) : http_outcome :=
  Responded (mkResponse 200 "" (Some body)).

(** An environment in which the file, when there is one, has the contents
    [file], the applications endpoint answers [apps] and every other URL
    answers [environment]; each blocking call takes a millisecond. *)
Definition make (file : option string) (apps environment : http_outcome) : Env :=
  mkEnv
    (fun _ _ => match file with Some _ => true | None => false end)
    (fun _ _ => file)
    (fun _ url _ => if String.eqb url apps_url then apps else environment)
    loads
    (fun _ => "?")
    (fun _ => 1000000%N).

Definition one_app : http_outcome := respond (JArr [JObj [("id", JStr "app-1")]]).

Definition spark_env (props : list json) : http_outcome :=
  respond (JObj [("sparkProperties", JArr props)]).

Definition prop (k v : string) : json := JArr [JStr k; JStr v].

(** The cluster is up and reports its tags. *)
Definition ready_props : list json :=
  [ prop "spark.app.name" "Databricks Shell";
    prop CLUSTER_USAGE_ALL_TAGS_PROP tags_text;
    prop CLUSTER_USAGE_CLUSTER_NAME_PROP "run-123-prod cluster";
    prop "spark.databricks.clusterUsageTags.clusterNodeType" "i3.xlarge";
    prop "spark.databricks.clusterUsageTags.clusterCreator" "jane@example.com";
    prop "spark.databricks.clusterUsageTags.clusterCreator" "*********(redacted)" ].
Definition ready : Env :=
  make (Some metrics_file) one_app (spark_env ready_props).






(** Only the metrics file matters. *)
Definition with_file (file : string) : Env := make (Some file) RequestFailed RequestFailed.

(** The all-tags property is redacted and so is the cluster name. *)
Definition redacted_name_props : list json :=
  [ prop CLUSTER_USAGE_ALL_TAGS_PROP REDACTED_VALUE;
    prop CLUSTER_USAGE_CLUSTER_NAME_PROP REDACTED_VALUE ].
Definition redacted_name : Env :=
  make (Some metrics_file) one_app (spark_env redacted_name_props).

(** A cluster name and a whitelisted tag with capitals and a space. *)
Definition creator_props : list json :=
  [ prop CLUSTER_USAGE_CLUSTER_NAME_PROP "etl";
    prop "spark.databricks.clusterUsageTags.clusterCreator" "John Doe" ].
Definition creator : Env :=
  make (Some metrics_file) one_app (spark_env creator_props).


(** The metrics file is not deployed. *)
Definition no_file : Env := make None RequestFailed RequestFailed.

(** No application is registered. *)
Definition no_apps : Env := make (Some metrics_file) (respond (JArr [])) RequestFailed.

(** The applications endpoint answers 503. *)
Definition unavailable : Env :=
  make (Some metrics_file)
    (Responded (mkResponse 503 "Service Unavailable" None)) RequestFailed.

(** As [ready], but the metrics file is deployed one second after time 0. *)
Definition late : Env :=
  mkEnv
    (fun w _ => (NS_PER_S <=? clock w)%Z)
    (fun _ _ => Some metrics_file)
    (requests_get ready)
    loads
    (fun _ => "?")
    (fun _ => 1000000%N).





(** As [ready], but the metrics file is deployed 125 seconds after time 0,
    and every blocking call takes half a minute. *)
Definition sluggish : Env :=
  mkEnv
    (fun w _ => (125 * NS_PER_S <=? clock w)%Z)
    (fun _ _ => Some metrics_file)
    (requests_get ready)
    loads
    (fun _ => "?")
    (fun _ => 30000000000%N).

(** The wrapper as [__init__] leaves it on line 56, at time 0. *)
Definition fresh (retries : bool) : state :=
  mkState (mkWorld 0 [EvLog DEBUG "Getting DBX environment properties"]) retries None.

End Demo.

(** ** Vocabulary of the properties *)

(** Spaces to dashes, then lowercase. *)
Definition normalize_job_name (s : string) : string :=
  PyStr.lower (PyStr.replace " " "-" s).

(** Run-ID prefixes removed, then spaces to dashes, then lowercase. *)
Definition normalize_cluster_name (s : string) : string :=
  PyStr.lower (PyStr.replace " " "-" (PyStr.re_sub_run_id s)).

(** No space (U+0020) and no capital letter of those below U+0100: A to Z
    and the Latin-1 capitals. *)
Fixpoint name_safe (s : string) : bool :=
  match s with
  | EmptyString => true
  | String c t => negb (Ascii.eqb c " ") && negb (PyStr.is_upper c) && name_safe t
  end.


(** A string that does not contain the redaction marker. *)
Definition unredacted (v : json) : bool :=
  match v with
  | JStr s => negb (PyStr.contains DATABRICKS_REDACTED_STR s)
  | _ => false
  end.

Definition is_string (v : json) : bool :=
  match v with JStr _ => true | _ => false end.

(** Every key and every value is a string. *)
Definition str_to_str (d : pydict) : bool :=
  forallb (fun kv => is_string (fst kv) && is_string (snd kv)) d.


(** The clock of a state. *)
Definition now (st : state) : Z := clock (st_world st).

(** A computation under which time does not run backwards and the
    [enable_retries] flag stays as it is. *)
Definition steady {A} (m : M A) : Prop :=
  forall st, (now st <= now (snd (m st)))%Z /\
             enable_retries (snd (m st)) = enable_retries st.

(** The state after a log call and after the sleep of line 96. *)
Definition logged (level : loglevel) (msg : string) (st : state) : state :=
  snd (log level msg st).

Definition slept (env : Env) (st : state) : state :=
  snd (time_sleep env RETRY_INTERVAL_S st).

(** What the handlers of lines 97-102 log for an exception. *)
Definition handler_msg (e : exn) : string :=
  match e with
  | DatabricksJobNameDiscoverException _ => "Failed to get DBX environment properties"
  | _ => "Generic exception was raise during DBX environment properties discovery"
  end.

(** Passes through the loop body that always suffice: one for each second of
    the timeout, since a pass that does not leave the loop sleeps a second. *)
Definition MAX_ATTEMPTS : nat := 120.

(** [P] is the [sparkProperties] table, as a dictionary, of an application
    environment that the web UI answered with. *)
Definition reported (env : Env) (P : pydict) : Prop :=
  exists (w : world) (url : string) (resp : Response) (full_spark_app_env sp : json),
    requests_get env w url REQUEST_TIMEOUT = Responded resp /\
    json_body resp = Some full_spark_app_env /\
    Py.get full_spark_app_env "sparkProperties" = Ok sp /\
    Py.dict sp = Ok P.

(** The value under [k] in [d] is the string under [k] in [extracted] put
    through [norm]; [k] is in both dictionaries or in neither. *)
Definition normalized_name (norm : string -> string) (k : string)
    (extracted d : pydict) : Prop :=
  match Py.dict_get extracted k with
  | None => Py.dict_get d k = None
  | Some v => exists s, v = JStr s /\ Py.dict_get d k = Some (JStr (norm s))
  end.

(** The [sparkProperties] table holds the all-tags property and its value
    does not contain the redaction marker (the test of lines 191-193). *)
Definition all_tags_usable (P : pydict) : Prop :=
  Py.is_none (Py.dict_get_default P CLUSTER_USAGE_ALL_TAGS_PROP) = false /\
  Py.contains DATABRICKS_REDACTED_STR (Py.dict_get_default P CLUSTER_USAGE_ALL_TAGS_PROP)
    = Ok false.

(** The table holds the cluster-name property (the test of line 203). *)
Definition cluster_name_present (P : pydict) : Prop :=
  Py.is_none (Py.dict_get_default P CLUSTER_USAGE_CLUSTER_NAME_PROP) = false.

(** The line has an equals sign, so it splits as key=value. *)
Definition has_eq (line : string) : bool := PyStr.contains "=" line.

(** [s] without its prefix [p], when it starts with [p]. *)
Fixpoint strip_prefix (p s : string) : option string :=
  match p with
  | EmptyString => Some s
  | String a p' =>
      match s with
      | EmptyString => None
      | String b s' => if Ascii.eqb a b then strip_prefix p' s' else None
      end
  end.

(** The host named by a list of lines: what follows [HOST_KEY_NAME=] on the
    last line that starts with it. *)
Fixpoint host_of_lines (lines : list string) : option string :=
  match lines with
  | [] => None
  | l :: t =>
      match host_of_lines t with
      | Some h => Some h
      | None => strip_prefix (HOST_KEY_NAME ++ "=") l
      end
  end.

(** A name is absent or empty. *)
Definition no_name (v : option string) : Prop := v = None \/ v = Some "".








(** The chain, run in [st], reports not-ready: it returns [None] (or the
    empty dictionary, which line 88 treats alike) without raising. *)
Definition not_ready (env : Env) (st : state) : Prop :=
  exists props st1,
    _cluster_all_tags_metadata env st = (Ok props, st1) /\ truthy props = false.

(** One run of the chain followed by the sleep of line 96. *)
Definition next_poll (env : Env) (st : state) : state :=
  slept env (snd (_cluster_all_tags_metadata env st)).

(** The state after [n] such rounds. *)
Definition polls (env : Env) (n : nat) (st : state) : state :=
  Nat.iter n (next_poll env) st.

Definition TIMEOUT_MSG : string :=
  "Databricks get DBX environment metadata timeout, continuing...".

Definition SUCCESS_MSG : string := "Successfully got relevant cluster tags metadata".

(** The events of a finished run, oldest first. *)
Definition events_of (out : option (res (option pydict) * state)) : list event :=
  match out with
  | Some (_, st) => rev (trace (st_world st))
  | None => []
  end.

(** How many times an event of the list is a sleep, and how many times it is
    the test for the metrics file, with which every run of the chain starts. *)
Definition count_sleeps (l : list event) : nat :=
  List.length (filter (fun ev => match ev with EvSleep _ => true | _ => false end) l).

Definition count_chain_runs (l : list event) : nat :=
  List.length (filter (fun ev => match ev with EvIsFile _ _ => true | _ => false end) l).

(** ** The constructor *)

(** A constructed [DBXWebUIEnvWrapper]: the state its methods use and
    [all_props_dict]. *)
Record wrapper : Type := mkWrapper {
  self_state : state;
  all_props_dict : option pydict
}.

Definition INIT_WARNING : string :=
  "DBXWebUIEnvWrapper failed to get relevant metadata, service name will not include metadata from DBX".

(** [__init__] (lines 49-61), called in the world [w]; an exception of
    [extract_relevant_metadata] would leave it as it is. *)
Definition DBXWebUIEnvWrapper_init (env : Env) (fuel : nat) (w : world)
    (enable_retries : bool) : option (res wrapper) :=
  let st := snd (log DEBUG "Getting DBX environment properties"
                   (mkState w enable_retries None)) in
  match extract_relevant_metadata env fuel st with
  | None => None
  | Some (Raise e, _) => Some (Raise e)
  | Some (Ok props, st') =>
      Some (Ok (mkWrapper
                  (match props with
                   | None => snd (log WARNING INIT_WARNING st')
                   | Some _ => st'
                   end)
                  props))
  end.

(** ** Vocabulary of the effects *)

Definition is_open (ev : event) : bool :=
  match ev with EvOpen _ => true | _ => false end.

Definition is_get (ev : event) : bool :=
  match ev with EvGet _ _ => true | _ => false end.

Definition count_opens (l : list event) : nat := List.length (filter is_open l).
Definition count_gets (l : list event) : nat := List.length (filter is_get l).

(** The events of a state, counted by kind. *)
Definition runs_of (st : state) : nat := count_chain_runs (trace (st_world st)).
Definition sleeps_of (st : state) : nat := count_sleeps (trace (st_world st)).
Definition opens_of (st : state) : nat := count_opens (trace (st_world st)).
Definition gets_of (st : state) : nat := count_gets (trace (st_world st)).

(** What discovery may do when its polling target is [target]: test for and
    read the metrics file, send a GET with the request timeout to the target
    or to the environment of an application below it, sleep for the retry
    interval, and log. *)
Definition allowed (target : option string) (ev : event) : Prop :=
  match ev with
  | EvIsFile path _ => path = DATABRICKS_METRICS_PROP_PATH
  | EvOpen path => path = DATABRICKS_METRICS_PROP_PATH
  | EvGet url timeout =>
      timeout = REQUEST_TIMEOUT /\
      exists u, target = Some u /\
                (url = u \/ exists id, url = (u ++ "/" ++ id ++ "/environment")%string)
  | EvSleep seconds => seconds = RETRY_INTERVAL_S
  | EvLog _ _ => True
  end.

(** From [st] to [st']: a polling target is kept; a new one is an
    applications URL on the default port; the trace grew by allowed events;
    and the file was not read if the target was known. *)
Definition orderly (st st' : state) : Prop :=
  (forall u, _apps_url st = Some u -> _apps_url st' = Some u) /\
  (_apps_url st = None ->
   forall u, _apps_url st' = Some u ->
             exists host, u = SPARKUI_APPS_URL (host ++ ":40001")) /\
  exists new,
    trace (st_world st') = (new ++ trace (st_world st))%list /\
    Forall (allowed (_apps_url st')) new /\
    (_apps_url st <> None -> count_opens new = 0%nat).

(** A computation that is orderly from every state. *)
Definition keeps_order {A} (m : M A) : Prop :=
  forall st, orderly st (snd (m st)).

(** A string-to-string dictionary as [get_name_from_metadata] takes it. *)
Fixpoint as_str_dict (d : pydict) : list (string * string) :=
  match d with
  | [] => []
  | (JStr k, JStr v) :: t => (k, v) :: as_str_dict t
  | _ :: t => as_str_dict t
  end.

(** From [st] to [st'] the chain was started [f] times, and at most [o]
    reads of the file, [g] GET requests and [s] sleeps were added. *)
Definition spends (f o g s : nat) (st st' : state) : Prop :=
  runs_of st' = (runs_of st + f)%nat /\
  (opens_of st' <= opens_of st + o)%nat /\
  (gets_of st' <= gets_of st + g)%nat /\
  (sleeps_of st' <= sleeps_of st + s)%nat.


(** ** The two names as the specification words them *)

(** The capital letters below U+0100 and, in the same order, their small
    letters: A to Z, and the Latin-1 capitals U+00C0 to U+00DE without the
    multiplication sign U+00D7, with the small letters U+00E0 to U+00FE
    without the division sign U+00F7. *)
Definition CAPITAL_LETTERS : string := "ABCDEFGHIJKLMNOPQRSTUVWXYZ".
Definition SMALL_LETTERS : string := "abcdefghijklmnopqrstuvwxyz".
Definition LATIN1_CAPITALS : list nat :=
  [
    192; 193; 194; 195; 196; 197; 198; 199; 200; 201;
    202; 203; 204; 205; 206; 207; 208; 209; 210; 211;
    212; 213; 214; 216; 217; 218; 219; 220; 221; 222
  ]%nat.
Definition LATIN1_SMALLS : list nat :=
  [
    224; 225; 226; 227; 228; 229; 230; 231; 232; 233;
    234; 235; 236; 237; 238; 239; 240; 241; 242; 243;
    244; 245; 246; 248; 249; 250; 251; 252; 253; 254
  ]%nat.

Definition CAPITALS : list (ascii * ascii) :=
  (combine (list_ascii_of_string CAPITAL_LETTERS) (list_ascii_of_string SMALL_LETTERS)
   ++ combine (map ascii_of_nat LATIN1_CAPITALS) (map ascii_of_nat LATIN1_SMALLS))%list.

(** The small letter of a capital; any other character is left alone. *)
Definition small_letter (c : ascii) : ascii :=
  match find (fun p => Ascii.eqb (fst p) c) CAPITALS with
  | Some p => snd p
  | None => c
  end.

Fixpoint each_char (f : ascii -> ascii) (s : string) : string :=
  match s with
  | EmptyString => EmptyString
  | String c t => String (f c) (each_char f t)
  end.

(** Every space replaced by a dash. *)
Definition spaces_to_dashes : string -> string :=
  each_char (fun c => if Ascii.eqb c " " then "-"%char else c).

(** Every letter lowercased. *)
Definition lowercased : string -> string := each_char small_letter.

(** The decimal digits, which are what [\d] matches below U+0100. *)
Definition decimal_digit (c : ascii) : Prop :=
  In c ["0"; "1"; "2"; "3"; "4"; "5"; "6"; "7"; "8"; "9"]%char.

Fixpoint decimal_digits (s : string) : Prop :=
  match s with
  | EmptyString => True
  | String c t => decimal_digit c /\ decimal_digits t
  end.

(** [s] begins with a match of [run-\d+-]: the letters "run", a dash, one
    digit or more, a dash. *)
Definition starts_with_run_id (s : string) : Prop :=
  exists ds rest,
    ds <> EmptyString /\ decimal_digits ds /\
    s = ("run-" ++ ds ++ "-" ++ rest)%string.

(** [out] is [s] with every match of [run-\d+-] removed, as [re.sub]
    finds the matches: reading from the left, a match is dropped whole and
    the reading goes on behind it; a character at which no match begins is
    kept. *)
Inductive run_ids_removed : string -> string -> Prop :=
| removed_end : run_ids_removed EmptyString EmptyString
| removed_match (ds rest out : string) :
    ds <> EmptyString -> decimal_digits ds ->
    run_ids_removed rest out ->
    run_ids_removed ("run-" ++ ds ++ "-" ++ rest)%string out
| removed_keep (c : ascii) (rest out : string) :
    ~ starts_with_run_id (String c rest) ->
    run_ids_removed rest out ->
    run_ids_removed (String c rest) (String c out).

(** The job name: spaces replaced by dashes, then lowercased. *)
Definition job_name_as_specified (s r : string) : Prop :=
  r = lowercased (spaces_to_dashes s).

(** The cluster name: run-IDs removed, then spaces replaced by dashes, then
    lowercased. *)
Definition cluster_name_as_specified (s r : string) : Prop :=
  exists stripped,
    run_ids_removed s stripped /\ r = lowercased (spaces_to_dashes stripped).

(** The value under [k] in [d] is what [spec] makes of the string under [k]
    in [extracted]; [k] is in both dictionaries or in neither. *)
Definition normalized_as (spec : string -> string -> Prop) (k : string)
    (extracted d : pydict) : Prop :=
  match Py.dict_get extracted k with
  | None => Py.dict_get d k = None
  | Some v => exists s r, v = JStr s /\ Py.dict_get d k = Some (JStr r) /\ spec s r
  end.

(** * Properties *)

(** ** Strings *)

(** [splitlines] gives back the lines of a text in which every line is
    ended by a line feed. *)
Lemma splitlines_line (l rest : string) :
  (forall c, In c (list_ascii_of_string l) -> PyStr.is_linebreak c = false) ->
  PyStr.splitlines (l ++ String "010" rest) = l :: PyStr.splitlines rest.
Proof.
  induction l as [|c l IH]; intros Hl.
  - reflexivity.
  - cbn [append PyStr.splitlines].
    rewrite (Hl c) by (left; reflexivity).
    rewrite IH by (intros c' Hc'; apply Hl; right; exact Hc').
    reflexivity.
Qed.

Lemma splitlines_terminated (lines : list string) :
  Forall (fun l => forall c, In c (list_ascii_of_string l) -> PyStr.is_linebreak c = false)
         lines ->
  PyStr.splitlines (fold_right (fun l text => l ++ String "010" text) "" lines) = lines.
Proof.
  induction 1 as [|l lines Hl _ IH]; [reflexivity|].
  cbn [fold_right]. rewrite (splitlines_line l _ Hl), IH. reflexivity.
Qed.

(** A run-ID prefix at the head of a string is removed by the substitution,
    which goes on with what follows. *)
Lemma span_digits_app (digits rest : string) :
  (forall c, In c (list_ascii_of_string digits) -> PyStr.is_digit c = true) ->
  PyStr.span_digits (digits ++ String "-" rest) = (String.length digits, String "-" rest).
Proof.
  induction digits as [|c digits IH]; intros Hd; [reflexivity|].
  cbn [append PyStr.span_digits String.length].
  rewrite (Hd c) by (left; reflexivity).
  rewrite IH by (intros c' Hc'; apply Hd; right; exact Hc'). reflexivity.
Qed.

Lemma re_sub_go_skip (s rest : string) (k : nat) :
  PyStr.re_sub_go (String.length s + k) (s ++ rest) = PyStr.re_sub_go k rest.
Proof.
  induction s as [|c s IH]; [reflexivity|].
  cbn [append String.length Nat.add PyStr.re_sub_go]. exact IH.
Qed.

Lemma re_sub_run_id_prefix (digits rest : string) :
  digits <> "" ->
  (forall c, In c (list_ascii_of_string digits) -> PyStr.is_digit c = true) ->
  PyStr.re_sub_run_id ("run-" ++ digits ++ "-" ++ rest) = PyStr.re_sub_run_id rest.
Proof.
  intros Hne Hd. unfold PyStr.re_sub_run_id.
  change ("run-" ++ digits ++ "-" ++ rest)%string
    with (String "r" (String "u" (String "n" (String "-" (digits ++ String "-" rest))))).
  cbn [PyStr.re_sub_go PyStr.run_id_match].
  rewrite (span_digits_app digits rest Hd).
  destruct (String.length digits) as [|n] eqn:Hlen.
  - destruct digits; [congruence|discriminate Hlen].
  - cbn [Nat.add pred PyStr.re_sub_go].
    change (S (n + 1)) with (S n + 1)%nat. rewrite <- Hlen.
    rewrite (re_sub_go_skip digits (String "-" rest) 1). reflexivity.
Qed.

Lemma append_assoc (a b c : string) : ((a ++ b) ++ c)%string = (a ++ b ++ c)%string.
Proof. induction a as [|x a IH]; [reflexivity|]. cbn [append]. now rewrite IH. Qed.

(** [lower] leaves no capital, and no space that was not there. *)
Lemma lower_char_not_upper (c : ascii) : PyStr.is_upper (PyStr.lower_char c) = false.
Proof. destruct c as [[] [] [] [] [] [] [] []]; reflexivity. Qed.

Lemma lower_char_space (c : ascii) :
  Ascii.eqb c " " = false -> Ascii.eqb (PyStr.lower_char c) " " = false.
Proof. destruct c as [[] [] [] [] [] [] [] []]; intros H; try reflexivity; discriminate H. Qed.

Lemma name_safe_lower_replace (s : string) :
  name_safe (PyStr.lower (PyStr.replace " " "-" s)) = true.
Proof.
  induction s as [|c t IH]; [reflexivity|].
  cbn [PyStr.replace PyStr.lower name_safe].
  rewrite lower_char_not_upper, IH, andb_true_r. cbn [negb andb].
  rewrite andb_true_r.
  destruct (Ascii.eqb c " ") eqn:E; [reflexivity|].
  now rewrite (lower_char_space c E).
Qed.

(** ** Dictionaries *)

Lemma is_str_JStr (k k' : string) : Py.is_str k (JStr k') = String.eqb k' k.
Proof. reflexivity. Qed.

Lemma dict_get_set (d : pydict) (k k' : string) (v : json) :
  Py.dict_get (Py.dict_set d k v) k' = if String.eqb k k' then Some v else Py.dict_get d k'.
Proof. reflexivity. Qed.

Lemma dict_get_set_same (d : pydict) (k : string) (v : json) :
  Py.dict_get (Py.dict_set d k v) k = Some v.
Proof. rewrite dict_get_set, String.eqb_refl. reflexivity. Qed.

Lemma dict_get_set_other (d : pydict) (k k' : string) (v : json) :
  k <> k' -> Py.dict_get (Py.dict_set d k v) k' = Py.dict_get d k'.
Proof.
  intros H. rewrite dict_get_set.
  destruct (String.eqb_spec k k'); [contradiction|reflexivity].
Qed.

(** ** [_apply_pattern] *)

Lemma replace_lower_inv (v v' : json) :
  Py.replace_lower v = Ok v' ->
  exists s, v = JStr s /\ v' = JStr (normalize_job_name s).
Proof.
  destruct v; cbn; intros H; try discriminate H.
  injection H as <-. eauto.
Qed.

Lemma re_sub_run_id_inv (v v' : json) :
  Py.re_sub_run_id v = Ok v' ->
  exists s, v = JStr s /\ v' = JStr (PyStr.re_sub_run_id s).
Proof.
  destruct v; cbn; intros H; try discriminate H.
  injection H as <-. eauto.
Qed.

(** What [_apply_pattern] does to each key of a dictionary it accepts. *)
Lemma apply_pattern_inv (m m' : pydict) :
  _apply_pattern m = Ok m' ->
  (forall k, k <> JOB_NAME_KEY -> k <> CLUSTER_NAME_KEY ->
             Py.dict_get m' k = Py.dict_get m k) /\
  match Py.dict_get m JOB_NAME_KEY with
  | None => Py.dict_get m' JOB_NAME_KEY = None
  | Some v => exists s, v = JStr s /\
                        Py.dict_get m' JOB_NAME_KEY = Some (JStr (normalize_job_name s))
  end /\
  match Py.dict_get m CLUSTER_NAME_KEY with
  | None => Py.dict_get m' CLUSTER_NAME_KEY = None
  | Some v => exists s, v = JStr s /\
                        Py.dict_get m' CLUSTER_NAME_KEY = Some (JStr (normalize_cluster_name s))
  end.
Proof.
  unfold _apply_pattern. intros H.
  assert (NE : JOB_NAME_KEY <> CLUSTER_NAME_KEY) by discriminate.
  destruct (Py.dict_get m JOB_NAME_KEY) as [vj|] eqn:Ej.
  - destruct (Py.replace_lower vj) as [vj'|e] eqn:Rj; [|discriminate H].
    apply replace_lower_inv in Rj as (sj & -> & ->).
    cbn [rbind] in H. rewrite dict_get_set_other in H by exact NE.
    destruct (Py.dict_get m CLUSTER_NAME_KEY) as [vc|] eqn:Ec.
    + destruct (Py.re_sub_run_id vc) as [v1|e] eqn:R1; [|discriminate H].
      apply re_sub_run_id_inv in R1 as (sc & -> & ->).
      cbn in H. injection H as <-.
      repeat split.
      * intros k Hj Hc. rewrite !dict_get_set_other by congruence. reflexivity.
      * exists sj. split; [reflexivity|].
        rewrite !dict_get_set_other by congruence. apply dict_get_set_same.
      * exists sc. split; [reflexivity|]. apply dict_get_set_same.
    + injection H as <-. repeat split.
      * intros k Hj Hc. now rewrite dict_get_set_other by congruence.
      * exists sj. split; [reflexivity|]. apply dict_get_set_same.
      * rewrite dict_get_set_other by exact NE. exact Ec.
  - cbn [rbind] in H.
    destruct (Py.dict_get m CLUSTER_NAME_KEY) as [vc|] eqn:Ec.
    + destruct (Py.re_sub_run_id vc) as [v1|e] eqn:R1; [|discriminate H].
      apply re_sub_run_id_inv in R1 as (sc & -> & ->).
      cbn in H. injection H as <-.
      repeat split.
      * intros k Hj Hc. rewrite !dict_get_set_other by congruence. reflexivity.
      * rewrite !dict_get_set_other by congruence. exact Ej.
      * exists sc. split; [reflexivity|]. apply dict_get_set_same.
    + injection H as <-. repeat split; auto.
Qed.

(** ** Time and the retry flag *)

Section Steady.
Variable env : Env.

Lemma steady_ret {A} (a : A) : steady (ret a).
Proof. intros st; cbn; split; [lia|reflexivity]. Qed.

Lemma steady_raise {A} (e : exn) : steady (@raise A e).
Proof. intros st; cbn; split; [lia|reflexivity]. Qed.

Lemma steady_lift {A} (r : res A) : steady (lift r).
Proof. intros st; cbn; split; [lia|reflexivity]. Qed.

Lemma steady_bind {A B} (m : M A) (k : A -> M B) :
  steady m -> (forall a, steady (k a)) -> steady (bind m k).
Proof.
  intros Hm Hk st. unfold bind.
  destruct (Hm st) as [H1 H2]. destruct (m st) as [[a|e] st1]; cbn in *.
  - destruct (Hk a st1) as [H3 H4]. split; [lia|congruence].
  - auto.
Qed.

Lemma steady_try_except {A} (m : M A) (h : exn -> M A) :
  steady m -> (forall e, steady (h e)) -> steady (try_except m h).
Proof.
  intros Hm Hh st. unfold try_except.
  destruct (Hm st) as [H1 H2]. destruct (m st) as [[a|e] st1]; cbn in *.
  - auto.
  - destruct (Hh e st1) as [H3 H4]. split; [lia|congruence].
Qed.

Lemma now_pass (ev : event) (secs : Z) (st : state) :
  now (pass env ev secs st) =
  (now st + secs * NS_PER_S + Z.of_N (elapsed_ns env (st_world st)))%Z.
Proof. reflexivity. Qed.

Lemma steady_log (level : loglevel) (msg : string) : steady (log level msg).
Proof. intros st; cbn; split; [unfold now; cbn; lia|reflexivity]. Qed.

Lemma steady_isfile (path : string) : steady (isfile env path).
Proof. intros st. cbn [isfile snd]. rewrite now_pass. split; [lia|reflexivity]. Qed.

Lemma steady_read_file (path : string) : steady (read_file env path).
Proof. intros st. cbn [read_file snd]. rewrite now_pass. split; [lia|reflexivity]. Qed.

Lemma steady_request_get (url : string) : steady (_request_get env url).
Proof. intros st. cbn [_request_get snd]. rewrite now_pass. split; [lia|reflexivity]. Qed.

Lemma steady_set_apps_url (url : string) : steady (set_apps_url url).
Proof. intros st; cbn; split; [unfold now; cbn; lia|reflexivity]. Qed.

Lemma steady_get_apps_url : steady get_apps_url.
Proof. intros st; cbn; split; [lia|reflexivity]. Qed.

Lemma steady_get_enable_retries : steady get_enable_retries.
Proof. intros st; cbn; split; [lia|reflexivity]. Qed.

Ltac steady_step :=
  first
    [ apply steady_ret | apply steady_raise | apply steady_lift
    | apply steady_log | apply steady_isfile | apply steady_read_file
    | apply steady_request_get | apply steady_set_apps_url
    | apply steady_get_apps_url | apply steady_get_enable_retries
    | apply steady_bind; [|intros ?]
    | apply steady_try_except; [|intros ?]
    | match goal with
      | |- steady (match ?x with _ => _ end) => destruct x
      end ].

Lemma steady_get_webui_address : steady (get_webui_address env).
Proof. unfold get_webui_address. repeat steady_step. Qed.

Lemma steady_discover_apps_url : steady (_discover_apps_url env).
Proof.
  unfold _discover_apps_url.
  repeat first [apply steady_get_webui_address | steady_step].
Qed.

Lemma steady_spark_apps_json : steady (_spark_apps_json env).
Proof. unfold _spark_apps_json. repeat steady_step. Qed.

Lemma steady_spark_app_env_json (app_id : json) : steady (_spark_app_env_json env app_id).
Proof. unfold _spark_app_env_json. repeat steady_step. Qed.

Lemma steady_cluster_all_tags_metadata : steady (_cluster_all_tags_metadata env).
Proof.
  unfold _cluster_all_tags_metadata.
  repeat first [ apply steady_discover_apps_url | apply steady_spark_apps_json
               | apply steady_spark_app_env_json | steady_step ].
Qed.

End Steady.

(** ** The polling loop *)

Section Loop.
Variable env : Env.

(** One pass through the loop body, by the outcome of the chain. *)
Lemma loop_body_eq (st : state) :
  loop_body env st =
  match _cluster_all_tags_metadata env st with
  | (Ok props, st1) =>
      if truthy props
      then (Ok (Return props),
            logged INFO "Successfully got relevant cluster tags metadata" st1)
      else (Ok (if enable_retries st1 then Continue else Break), slept env st1)
  | (Raise e, st1) => (Ok (Return None), logged EXCEPTION (handler_msg e) st1)
  end.
Proof.
  unfold loop_body, attempt, bind, try_except.
  destruct (_cluster_all_tags_metadata env st) as [[props|e] st1].
  - destruct (truthy props); [reflexivity|].
    cbn. destruct (enable_retries st1); reflexivity.
  - destruct e; reflexivity.
Qed.

Lemma now_logged (level : loglevel) (msg : string) (st : state) :
  now (logged level msg st) = now st.
Proof. reflexivity. Qed.

Lemma now_slept (st : state) :
  (now st + RETRY_INTERVAL_S * NS_PER_S <= now (slept env st))%Z.
Proof. unfold slept. cbn [time_sleep snd]. rewrite now_pass. lia. Qed.

(** The body never raises; time does not run backwards; a pass that asks
    for another one has slept a second. *)
Lemma loop_body_ok (st : state) :
  exists f st',
    loop_body env st = (Ok f, st') /\
    (now st <= now st')%Z /\
    (f = Continue -> (now st + NS_PER_S <= now st')%Z).
Proof.
  rewrite loop_body_eq.
  pose proof (steady_cluster_all_tags_metadata env st) as [Hn _].
  destruct (_cluster_all_tags_metadata env st) as [[props|e] st1]; cbn [snd] in Hn.
  - destruct (truthy props).
    + eexists _, _. split; [reflexivity|]. rewrite now_logged. split; [lia|discriminate].
    + pose proof (now_slept st1) as Hs. unfold RETRY_INTERVAL_S in Hs.
      eexists _, _. split; [reflexivity|]. unfold NS_PER_S in *. split; intros; lia.
  - eexists _, _. split; [reflexivity|]. rewrite now_logged. split; [lia|discriminate].
Qed.

Lemma after_loop_eq (st : state) :
  after_loop st =
  (Ok None, logged INFO "Databricks get DBX environment metadata timeout, continuing..." st).
Proof. reflexivity. Qed.

(** The loop ends, without raising, within as many passes as there are
    seconds left before the deadline. *)
Lemma poll_terminates (fuel : nat) :
  forall (start_time : Z) (st : state),
    (DATABRICKS_JOBNAME_TIMEOUT_S * NS_PER_S - (now st - start_time)
       <= Z.of_nat fuel * NS_PER_S)%Z ->
    exists r st', poll env fuel start_time st = Some (Ok r, st').
Proof.
  induction fuel as [|fuel IH]; intros start_time st Hrem; cbn [poll]; fold (now st).
  - destruct (Z.ltb_spec (now st - start_time) (DATABRICKS_JOBNAME_TIMEOUT_S * NS_PER_S)).
    + unfold DATABRICKS_JOBNAME_TIMEOUT_S, NS_PER_S in *. lia.
    + rewrite after_loop_eq. eauto.
  - destruct (Z.ltb_spec (now st - start_time) (DATABRICKS_JOBNAME_TIMEOUT_S * NS_PER_S)).
    + destruct (loop_body_ok st) as (f & st' & -> & Hmono & Hcont).
      destruct f as [r| |].
      * eauto.
      * rewrite after_loop_eq. eauto.
      * apply IH. specialize (Hcont eq_refl).
        unfold DATABRICKS_JOBNAME_TIMEOUT_S, NS_PER_S in *. lia.
    + rewrite after_loop_eq. eauto.
Qed.

(** More fuel does not change a finished run. *)
Lemma poll_more_fuel (fuel : nat) :
  forall (fuel' : nat) (start_time : Z) (st : state) out,
    poll env fuel start_time st = Some out ->
    (fuel <= fuel')%nat ->
    poll env fuel' start_time st = Some out.
Proof.
  induction fuel as [|fuel IH]; intros fuel' start_time st out H Hle.
  - cbn [poll] in H. destruct fuel'; cbn [poll];
      destruct (_ <? _)%Z; try discriminate H; exact H.
  - destruct fuel' as [|fuel']; [lia|].
    cbn [poll] in H |- *.
    destruct (_ <? _)%Z; [|exact H].
    destruct (loop_body env st) as [[[r| |]|e] st']; try exact H.
    apply IH; [exact H|lia].
Qed.

Lemma extract_terminates (fuel : nat) (st : state) :
  (MAX_ATTEMPTS <= fuel)%nat ->
  exists r st', extract_relevant_metadata env fuel st = Some (Ok r, st').
Proof.
  intros Hle. unfold extract_relevant_metadata. fold (now st).
  destruct (poll_terminates MAX_ATTEMPTS (now st) st) as (r & st' & H).
  - unfold MAX_ATTEMPTS, DATABRICKS_JOBNAME_TIMEOUT_S, NS_PER_S. lia.
  - exists r, st'. eapply poll_more_fuel; eauto.
Qed.

End Loop.

(** ** Where a returned mapping comes from *)

Section Provenance.
Variable env : Env.

Lemma request_get_inv (url : string) (st st' : state) (resp : Response) :
  _request_get env url st = (Ok resp, st') ->
  requests_get env (st_world st) url REQUEST_TIMEOUT = Responded resp.
Proof.
  unfold _request_get. intros H.
  destruct (requests_get env (st_world st) url REQUEST_TIMEOUT) as [r| |];
    try discriminate H.
  unfold raise_for_status in H.
  destruct (_ && _); [discriminate H|]. now injection H as <- _.
Qed.

Lemma spark_app_env_json_inv (app_id full : json) (st st' : state) :
  _spark_app_env_json env app_id st = (Ok full, st') ->
  exists w url resp,
    requests_get env w url REQUEST_TIMEOUT = Responded resp /\
    json_body resp = Some full.
Proof.
  unfold _spark_app_env_json, bind, get_apps_url, try_except, raise, ret.
  destruct (_apps_url st) as [apps_url|]; [|discriminate].
  destruct (_request_get env _ st) as [[resp|e] st1] eqn:G; [|discriminate].
  apply request_get_inv in G.
  destruct (json_body resp) as [e|] eqn:J; [|discriminate].
  intros H. injection H as <- _. eauto.
Qed.

Lemma metadata_of_env_inv (full : json) (d : pydict) :
  metadata_of_env env full = Ok d ->
  exists sp P,
    Py.get full "sparkProperties" = Ok sp /\
    Py.dict sp = Ok P /\
    tags_metadata env P = Ok d.
Proof.
  unfold metadata_of_env.
  destruct (Py.get full "sparkProperties") as [sp|e] eqn:G; [|discriminate].
  cbn [rbind]. destruct (Py.is_none sp); [discriminate|].
  destruct (Py.dict sp) as [P|e] eqn:D; [|discriminate].
  intros H. exists sp, P. auto.
Qed.

Lemma cluster_all_tags_metadata_inv (st st' : state) (d : pydict) :
  _cluster_all_tags_metadata env st = (Ok (Some d), st') ->
  exists P, reported env P /\ tags_metadata env P = Ok d.
Proof.
  unfold _cluster_all_tags_metadata, bind, ret, lift. intros H.
  destruct (isfile env _ st) as [[found|?] s1]; [|discriminate H].
  destruct (negb found); [discriminate H|].
  destruct (_discover_apps_url env s1) as [[disc|?] s2]; [|discriminate H].
  destruct (negb disc); [discriminate H|].
  destruct (_spark_apps_json env s2) as [[apps|?] s3]; [|discriminate H].
  destruct (Py.is_none apps); [discriminate H|].
  destruct (Py.len apps) as [n|?]; [|discriminate H].
  destruct (Nat.eqb n 0); [discriminate H|].
  destruct (Py.getitem0 apps) as [app|?]; [|discriminate H].
  destruct (Py.getitem app "id") as [app_id|?]; [|discriminate H].
  destruct (_spark_app_env_json env app_id s3) as [[full|?] s4] eqn:E; [|discriminate H].
  destruct (metadata_of_env env full) as [r|?] eqn:Em; [|discriminate H].
  injection H as -> _.
  apply spark_app_env_json_inv in E as (w & url & resp & Hget & Hbody).
  apply metadata_of_env_inv in Em as (sp & P & Hsp & Hdict & Htags).
  exists P. split; [|exact Htags].
  exists w, url, resp, full, sp. auto.
Qed.

Lemma poll_some_inv (fuel : nat) :
  forall (start_time : Z) (st st' : state) (d : pydict),
    poll env fuel start_time st = Some (Ok (Some d), st') ->
    exists P, reported env P /\ tags_metadata env P = Ok d.
Proof.
  induction fuel as [|fuel IH]; intros start_time st st' d; cbn [poll];
    destruct (_ <? _)%Z; try discriminate.
  rewrite loop_body_eq.
  destruct (_cluster_all_tags_metadata env st) as [[props|e] st1] eqn:E.
  - destruct (truthy props) eqn:T.
    + intros H. injection H as -> _.
      eapply cluster_all_tags_metadata_inv; exact E.
    + destruct (enable_retries st1); [apply IH|discriminate].
  - discriminate.
Qed.

(** Every mapping that discovery returns is [tags_metadata] of a reported
    [sparkProperties] table. *)
Lemma extract_some_inv (fuel : nat) (st st' : state) (d : pydict) :
  extract_relevant_metadata env fuel st = Some (Ok (Some d), st') ->
  exists P, reported env P /\ tags_metadata env P = Ok d.
Proof. apply poll_some_inv. Qed.

Lemma tags_metadata_inv (P d : pydict) :
  tags_metadata env P = Ok d ->
  exists extracted, collect_tags env P = Ok extracted /\ _apply_pattern extracted = Ok d.
Proof.
  unfold tags_metadata. destruct (collect_tags env P) as [x|e]; [|discriminate].
  cbn [rbind]. eauto.
Qed.

End Provenance.

(** ** Normalization of the two names *)

Lemma normalized_names (m m' : pydict) :
  _apply_pattern m = Ok m' ->
  normalized_name normalize_job_name JOB_NAME_KEY m m' /\
  normalized_name normalize_cluster_name CLUSTER_NAME_KEY m m'.
Proof. intros H. apply apply_pattern_inv in H as (_ & Hj & Hc). split; assumption. Qed.

(** ** The source's string operations against the specification's *)

Lemma lower_char_small_letter (c : ascii) : PyStr.lower_char c = small_letter c.
Proof. destruct c as [[] [] [] [] [] [] [] []]; vm_compute; reflexivity. Qed.

Lemma lower_lowercased (s : string) : PyStr.lower s = lowercased s.
Proof.
  induction s as [|c s IH]; [reflexivity|].
  cbn [PyStr.lower]. rewrite IH, lower_char_small_letter. reflexivity.
Qed.

Lemma replace_spaces_to_dashes (s : string) :
  PyStr.replace " " "-" s = spaces_to_dashes s.
Proof.
  induction s as [|c s IH]; [reflexivity|].
  cbn [PyStr.replace]. rewrite IH. reflexivity.
Qed.

Lemma is_digit_decimal_digit (c : ascii) :
  PyStr.is_digit c = true <-> decimal_digit c.
Proof.
  split.
  - destruct c as [[] [] [] [] [] [] [] []]; intros H; try discriminate H;
      unfold decimal_digit; cbn [In];
      repeat (first [left; reflexivity | right]).
  - unfold decimal_digit. cbn [In].
    intros [H|[H|[H|[H|[H|[H|[H|[H|[H|[H|[]]]]]]]]]]]; subst c; reflexivity.
Qed.

Lemma decimal_digits_is_digit (ds : string) :
  decimal_digits ds ->
  forall c, In c (list_ascii_of_string ds) -> PyStr.is_digit c = true.
Proof.
  induction ds as [|d ds IH]; intros Hds c Hc; [destruct Hc|].
  destruct Hds as [Hd Hds]. destruct Hc as [<- | Hc].
  - apply is_digit_decimal_digit. exact Hd.
  - apply IH; assumption.
Qed.

Lemma length_append (a b : string) :
  String.length (a ++ b) = (String.length a + String.length b)%nat.
Proof. induction a as [|c a IH]; [reflexivity|]. cbn. now rewrite IH. Qed.

(** The digits that [span_digits] counts. *)
Lemma span_digits_inv (s : string) :
  forall n r,
    PyStr.span_digits s = (n, r) ->
    exists ds, s = (ds ++ r)%string /\ decimal_digits ds /\ String.length ds = n.
Proof.
  induction s as [|c s IH]; intros n r; cbn [PyStr.span_digits].
  - intros H. injection H as <- <-. exists EmptyString. repeat split.
  - destruct (PyStr.is_digit c) eqn:Ec.
    + destruct (PyStr.span_digits s) as [m r'] eqn:Es.
      intros H. injection H as <- <-.
      destruct (IH m r' eq_refl) as (ds & -> & Hds & Hlen).
      exists (String c ds). split; [reflexivity|]. split.
      * split; [apply is_digit_decimal_digit; exact Ec|exact Hds].
      * cbn. now rewrite Hlen.
    + intros H. injection H as <- <-. exists EmptyString. repeat split.
Qed.

(** Where the source finds a match, a run-ID begins, and conversely. *)
Lemma run_id_match_some (s : string) (n : nat) :
  PyStr.run_id_match s = Some n -> starts_with_run_id s.
Proof.
  unfold PyStr.run_id_match.
  destruct s as [|c1 [|c2 [|c3 [|c4 t]]]]; try discriminate;
    try (destruct c1 as [[] [] [] [] [] [] [] []]; discriminate).
  - destruct c1 as [[] [] [] [] [] [] [] []]; try discriminate;
      destruct c2 as [[] [] [] [] [] [] [] []]; discriminate.
  - destruct c1 as [[] [] [] [] [] [] [] []]; try discriminate;
      destruct c2 as [[] [] [] [] [] [] [] []]; try discriminate;
      destruct c3 as [[] [] [] [] [] [] [] []]; discriminate.
  - destruct c1 as [[] [] [] [] [] [] [] []]; try discriminate;
      destruct c2 as [[] [] [] [] [] [] [] []]; try discriminate;
      destruct c3 as [[] [] [] [] [] [] [] []]; try discriminate;
      destruct c4 as [[] [] [] [] [] [] [] []]; try discriminate.
    destruct (PyStr.span_digits t) as [[|m] r] eqn:Es; [discriminate|].
    destruct r as [|d r]; [discriminate|].
    destruct d as [[] [] [] [] [] [] [] []]; try discriminate.
    intros _.
    destruct (span_digits_inv t _ _ Es) as (ds & -> & Hds & Hlen).
    exists ds, r. split; [|split; [exact Hds|reflexivity]].
    intros ->. discriminate Hlen.
Qed.

Lemma run_id_match_none (s : string) :
  PyStr.run_id_match s = None -> ~ starts_with_run_id s.
Proof.
  intros Hnone (ds & rest & Hne & Hds & ->).
  change ("run-" ++ ds ++ "-" ++ rest)%string
    with (String "r" (String "u" (String "n" (String "-" (ds ++ String "-" rest))))) in Hnone.
  cbn [PyStr.run_id_match] in Hnone.
  rewrite (span_digits_app ds rest (decimal_digits_is_digit ds Hds)) in Hnone.
  destruct ds; [congruence|discriminate Hnone].
Qed.

Lemma re_sub_run_id_keep (c : ascii) (t : string) :
  PyStr.run_id_match (String c t) = None ->
  PyStr.re_sub_run_id (String c t) = String c (PyStr.re_sub_run_id t).
Proof. intros H. unfold PyStr.re_sub_run_id. cbn [PyStr.re_sub_go]. rewrite H. reflexivity. Qed.

(** [re.sub] as the source has it removes the run-IDs as specified ... *)
Lemma re_sub_run_id_removes (s : string) : run_ids_removed s (PyStr.re_sub_run_id s).
Proof.
  remember (String.length s) as n eqn:Hn.
  assert (Hle : (String.length s <= n)%nat) by lia. clear Hn.
  revert s Hle. induction n as [|n IH]; intros s Hle.
  - destruct s; [constructor|cbn in Hle; lia].
  - destruct s as [|c t]; [constructor|].
    destruct (PyStr.run_id_match (String c t)) as [m|] eqn:Em.
    + destruct (run_id_match_some _ _ Em) as (ds & rest & Hne & Hds & Hs).
      rewrite Hs.
      rewrite (re_sub_run_id_prefix ds rest Hne (decimal_digits_is_digit ds Hds)).
      apply removed_match; [exact Hne|exact Hds|].
      apply IH.
      rewrite Hs in Hle. rewrite !length_append in Hle. cbn in Hle. lia.
    + rewrite (re_sub_run_id_keep c t Em).
      apply removed_keep; [apply run_id_match_none; exact Em|].
      apply IH. cbn in Hle. lia.
Qed.

(** ... and what is specified leaves no choice. *)
Lemma run_ids_removed_unique (s out : string) :
  run_ids_removed s out -> out = PyStr.re_sub_run_id s.
Proof.
  induction 1 as [|ds rest out Hne Hds _ IH|c rest out Hno _ IH].
  - reflexivity.
  - rewrite (re_sub_run_id_prefix ds rest Hne (decimal_digits_is_digit ds Hds)).
    exact IH.
  - destruct (PyStr.run_id_match (String c rest)) as [m|] eqn:Em.
    + exfalso. apply Hno. eapply run_id_match_some. exact Em.
    + rewrite (re_sub_run_id_keep c rest Em), IH. reflexivity.
Qed.

Lemma normalize_job_name_as_specified (s : string) :
  job_name_as_specified s (normalize_job_name s).
Proof.
  unfold job_name_as_specified, normalize_job_name.
  rewrite lower_lowercased, replace_spaces_to_dashes. reflexivity.
Qed.

Lemma normalize_cluster_name_as_specified (s : string) :
  cluster_name_as_specified s (normalize_cluster_name s).
Proof.
  exists (PyStr.re_sub_run_id s). split; [apply re_sub_run_id_removes|].
  unfold normalize_cluster_name.
  rewrite lower_lowercased, replace_spaces_to_dashes. reflexivity.
Qed.

Lemma cluster_name_as_specified_unique (s r r' : string) :
  cluster_name_as_specified s r -> cluster_name_as_specified s r' -> r = r'.
Proof.
  intros (t & Ht & ->) (t' & Ht' & ->).
  rewrite (run_ids_removed_unique s t Ht), (run_ids_removed_unique s t' Ht').
  reflexivity.
Qed.

Lemma normalized_name_as (norm : string -> string) (spec : string -> string -> Prop)
    (k : string) (extracted d : pydict) :
  (forall s, spec s (norm s)) ->
  normalized_name norm k extracted d -> normalized_as spec k extracted d.
Proof.
  unfold normalized_name, normalized_as. intros Hspec H.
  destruct (Py.dict_get extracted k) as [v|]; [|exact H].
  destruct H as (s & -> & Hd). exists s, (norm s). auto.
Qed.

(** C3.  In a mapping returned by discovery, the [RunName] value is the
    extracted value with every space replaced by a dash and then lowercased,
    and the [ClusterName] value is the extracted value with every match of
    [run-\d+-] removed, then spaces replaced by dashes, then lowercased; each
    key is present after normalization exactly when it was extracted.  What
    is specified for the cluster name is one string and no other.  So
    "My Job 1" yields "my-job-1", "run-123-prod cluster" yields
    "prod-cluster", and run-IDs inside a name go as well. *)
Theorem discovery_normalizes_names :
  (forall (env : Env) (fuel : nat) (st st' : state) (d : pydict),
      extract_relevant_metadata env fuel st = Some (Ok (Some d), st') ->
      exists P extracted,
        reported env P /\
        collect_tags env P = Ok extracted /\
        normalized_as job_name_as_specified JOB_NAME_KEY extracted d /\
        normalized_as cluster_name_as_specified CLUSTER_NAME_KEY extracted d) /\
  (forall s r r',
      cluster_name_as_specified s r -> cluster_name_as_specified s r' -> r = r') /\
  job_name_as_specified "My Job 1" "my-job-1" /\
  cluster_name_as_specified "run-123-prod cluster" "prod-cluster" /\
  cluster_name_as_specified "x run-7-y run-08-Z" "x-y-z" /\
  cluster_name_as_specified "run-run-1-2-a" "run-2-a".
Proof.
  split; [|split; [exact cluster_name_as_specified_unique|]].
  - intros env fuel st st' d H.
    apply extract_some_inv in H as (P & HP & H).
    apply tags_metadata_inv in H as (extracted & Hc & Ha).
    apply normalized_names in Ha as [Hj Hn].
    exists P, extracted. split; [exact HP|]. split; [exact Hc|]. split.
    + exact (normalized_name_as _ _ _ _ _ normalize_job_name_as_specified Hj).
    + exact (normalized_name_as _ _ _ _ _ normalize_cluster_name_as_specified Hn).
  - split; [reflexivity|].
    split; [|split].
    + exact (normalize_cluster_name_as_specified "run-123-prod cluster").
    + exact (normalize_cluster_name_as_specified "x run-7-y run-08-Z").
    + exact (normalize_cluster_name_as_specified "run-run-1-2-a").
Qed.

Lemma discovery_normalizes_names_witness :
  exists d st',
    extract_relevant_metadata Demo.ready 1 (Demo.fresh true) = Some (Ok (Some d), st') /\
    Py.dict_get d JOB_NAME_KEY = Some (JStr "my-job-1") /\
    Py.dict_get d CLUSTER_NAME_KEY = Some (JStr "prod-cluster") /\
    exists P extracted,
      reported Demo.ready P /\
      collect_tags Demo.ready P = Ok extracted /\
      normalized_as job_name_as_specified JOB_NAME_KEY extracted d /\
      normalized_as cluster_name_as_specified CLUSTER_NAME_KEY extracted d.
Proof.
  eexists. eexists.
  split; [vm_compute; reflexivity|].
  split; [reflexivity|]. split; [reflexivity|].
  eapply (proj1 discovery_normalizes_names Demo.ready 1 (Demo.fresh true)).
  vm_compute. reflexivity.
Defined.

(** ** What is normalized and what is not *)

Lemma normalized_name_safe (norm : string -> string) (k : string) (m d : pydict) (v : json) :
  (forall s, name_safe (norm s) = true) ->
  normalized_name norm k m d ->
  Py.dict_get d k = Some v ->
  exists s, v = JStr s /\ name_safe s = true.
Proof.
  unfold normalized_name. intros Hsafe Hn Hv.
  destruct (Py.dict_get m k) as [v0|].
  - destruct Hn as (s & _ & Hd). rewrite Hd in Hv. injection Hv as <-. eauto.
  - congruence.
Qed.

Lemma name_safe_normalize_job_name (s : string) : name_safe (normalize_job_name s) = true.
Proof. apply name_safe_lower_replace. Qed.

Lemma name_safe_normalize_cluster_name (s : string) :
  name_safe (normalize_cluster_name s) = true.
Proof. apply name_safe_lower_replace. Qed.

(** C7 as amended.  In a mapping returned by discovery the [RunName] and the
    [ClusterName] values are strings without a space and without a capital
    letter from A to Z (and, below U+0100, without a Latin-1 capital); the
    value of every other key is the extracted one, unchanged. *)
Theorem discovery_names_are_name_safe
    (env : Env) (fuel : nat) (st st' : state) (d : pydict) :
  extract_relevant_metadata env fuel st = Some (Ok (Some d), st') ->
  (forall k v, k = JOB_NAME_KEY \/ k = CLUSTER_NAME_KEY ->
               Py.dict_get d k = Some v ->
               exists s, v = JStr s /\ name_safe s = true) /\
  exists P extracted,
    reported env P /\
    collect_tags env P = Ok extracted /\
    forall k, k <> JOB_NAME_KEY -> k <> CLUSTER_NAME_KEY ->
              Py.dict_get d k = Py.dict_get extracted k.
Proof.
  intros H.
  apply extract_some_inv in H as (P & HP & H).
  apply tags_metadata_inv in H as (extracted & Hc & Ha).
  pose proof (normalized_names _ _ Ha) as [Hj Hn].
  apply apply_pattern_inv in Ha as (Hother & _).
  split.
  - intros k v [-> | ->] Hv.
    + eapply normalized_name_safe;
        [exact name_safe_normalize_job_name | exact Hj | exact Hv].
    + eapply normalized_name_safe;
        [exact name_safe_normalize_cluster_name | exact Hn | exact Hv].
  - exists P, extracted. auto.
Qed.

Lemma discovery_names_are_name_safe_witness :
  exists d st',
    extract_relevant_metadata Demo.ready 1 (Demo.fresh true) = Some (Ok (Some d), st') /\
    (forall k v, k = JOB_NAME_KEY \/ k = CLUSTER_NAME_KEY ->
                 Py.dict_get d k = Some v ->
                 exists s, v = JStr s /\ name_safe s = true) /\
    exists P extracted,
      reported Demo.ready P /\
      collect_tags Demo.ready P = Ok extracted /\
      forall k, k <> JOB_NAME_KEY -> k <> CLUSTER_NAME_KEY ->
                Py.dict_get d k = Py.dict_get extracted k.
Proof.
  eexists. eexists.
  split; [vm_compute; reflexivity|].
  eapply (discovery_names_are_name_safe Demo.ready 1 (Demo.fresh true)).
  vm_compute. reflexivity.
Defined.

(** C7 as stated fails: a whitelisted cluster-configuration tag reaches the
    returned mapping with its capitals and its space. *)
Lemma whitelisted_tag_is_not_normalized :
  exists d st',
    extract_relevant_metadata Demo.creator 1 (Demo.fresh true) = Some (Ok (Some d), st') /\
    Py.dict_get d "spark.databricks.clusterUsageTags.clusterCreator" = Some (JStr "John Doe") /\
    name_safe "John Doe" = false.
Proof.
  eexists. eexists.
  split; [vm_compute; reflexivity|].
  split; reflexivity.
Qed.

(** ** The two sources of tags *)

Lemma primary_tags_source (env : Env) (P r : pydict) :
  primary_tags env P = Ok r -> all_tags_usable P \/ cluster_name_present P.
Proof.
  unfold primary_tags, all_tags_usable, cluster_name_present.
  destruct (Py.is_none (Py.dict_get_default P CLUSTER_USAGE_ALL_TAGS_PROP)) eqn:Enone.
  - cbn [rbind].
    destruct (Py.is_none (Py.dict_get_default P CLUSTER_USAGE_CLUSTER_NAME_PROP));
      [discriminate|auto].
  - destruct (Py.contains DATABRICKS_REDACTED_STR
                (Py.dict_get_default P CLUSTER_USAGE_ALL_TAGS_PROP)) as [[|]|e];
      cbn [rbind negb]; try discriminate.
    + destruct (Py.is_none (Py.dict_get_default P CLUSTER_USAGE_CLUSTER_NAME_PROP));
        [discriminate|auto].
    + auto.
Qed.

(** A mapping returned by discovery comes from a reported [sparkProperties]
    table that passes the test of lines 191-193 (the all-cluster-tags
    property is there and its value does not contain "redacted") or the
    test of line 203 (the cluster-name property is there). *)
Lemma discovery_needs_a_tag_source
    (env : Env) (fuel : nat) (st st' : state) (d : pydict) :
  extract_relevant_metadata env fuel st = Some (Ok (Some d), st') ->
  exists P,
    reported env P /\
    tags_metadata env P = Ok d /\
    (all_tags_usable P \/ cluster_name_present P).
Proof.
  intros H.
  apply extract_some_inv in H as (P & HP & H).
  exists P. split; [exact HP|]. split; [exact H|].
  apply tags_metadata_inv in H as (extracted & Hc & _).
  unfold collect_tags in Hc.
  destruct (primary_tags env P) as [r|e] eqn:Ep; [|discriminate Hc].
  eapply primary_tags_source; exact Ep.
Qed.

Lemma discovery_needs_a_tag_source_witness :
  exists d st',
    extract_relevant_metadata Demo.ready 1 (Demo.fresh true) = Some (Ok (Some d), st') /\
    exists P,
      reported Demo.ready P /\
      tags_metadata Demo.ready P = Ok d /\
      (all_tags_usable P \/ cluster_name_present P).
Proof.
  eexists. eexists.
  split; [vm_compute; reflexivity|].
  eapply (discovery_needs_a_tag_source Demo.ready 1 (Demo.fresh true)).
  vm_compute. reflexivity.
Defined.

(** C6 on the code.  With the all-cluster-tags property redacted and the
    cluster-name property redacted too, discovery returns a mapping that is
    not empty, whose [ClusterName] is the redacted text: the fallback of
    line 203 takes the cluster name without the test for the redaction
    marker that lines 193 and 217 make on the values they take. *)
Theorem redacted_cluster_name_is_returned :
  exists d st' P,
    extract_relevant_metadata Demo.redacted_name 1 (Demo.fresh true)
      = Some (Ok (Some d), st') /\
    d <> [] /\
    Py.dict_get d CLUSTER_NAME_KEY = Some (JStr Demo.REDACTED_VALUE) /\
    Py.dict (JArr Demo.redacted_name_props) = Ok P /\
    unredacted (Py.dict_get_default P CLUSTER_USAGE_ALL_TAGS_PROP) = false /\
    unredacted (Py.dict_get_default P CLUSTER_USAGE_CLUSTER_NAME_PROP) = false.
Proof.
  eexists. eexists. eexists.
  split; [vm_compute; reflexivity|].
  split; [discriminate|].
  split; [reflexivity|].
  split; [vm_compute; reflexivity|].
  split; reflexivity.
Qed.

(** ** [get_name_from_metadata] *)

Lemma nonempty_some (v : string) : v <> "" -> nonempty (Some v) = Some v.
Proof. destruct v; [congruence|reflexivity]. Qed.

Lemma nonempty_no_name (v : option string) : no_name v -> nonempty v = None.
Proof. intros [-> | ->]; reflexivity. Qed.

(** C9 as amended.  [get_name_from_metadata] returns "job-" followed by the
    [RunName] value when that key is present with a non-empty value;
    otherwise the [ClusterName] value when that key is present with a
    non-empty value; otherwise nothing.  So [RunName = "my-job-1"] gives
    "job-my-job-1". *)
Theorem get_name_from_metadata_cases (metadata : list (string * string)) :
  (forall job_name,
      str_get metadata JOB_NAME_KEY = Some job_name -> job_name <> "" ->
      get_name_from_metadata metadata = Some ("job-" ++ job_name)) /\
  (forall cluster_name,
      no_name (str_get metadata JOB_NAME_KEY) ->
      str_get metadata CLUSTER_NAME_KEY = Some cluster_name -> cluster_name <> "" ->
      get_name_from_metadata metadata = Some cluster_name) /\
  (no_name (str_get metadata JOB_NAME_KEY) ->
   no_name (str_get metadata CLUSTER_NAME_KEY) ->
   get_name_from_metadata metadata = None).
Proof.
  unfold get_name_from_metadata. repeat split.
  - intros j Hj Hne. rewrite Hj, (nonempty_some j Hne). reflexivity.
  - intros c Hj Hc Hne.
    rewrite (nonempty_no_name _ Hj), Hc, (nonempty_some c Hne). reflexivity.
  - intros Hj Hc.
    rewrite (nonempty_no_name _ Hj), (nonempty_no_name _ Hc). reflexivity.
Qed.

Lemma get_name_from_metadata_cases_witness :
  get_name_from_metadata [("RunName", "my-job-1"); ("ClusterName", "prod-cluster")]
    = Some "job-my-job-1" /\
  get_name_from_metadata [("RunName", ""); ("ClusterName", "prod-cluster")]
    = Some "prod-cluster" /\
  get_name_from_metadata [("Vendor", "Databricks")] = None.
Proof.
  split; [|split].
  - apply (proj1 (get_name_from_metadata_cases
                    [("RunName", "my-job-1"); ("ClusterName", "prod-cluster")]));
      [reflexivity|discriminate].
  - apply (proj1 (proj2 (get_name_from_metadata_cases
                    [("RunName", ""); ("ClusterName", "prod-cluster")])));
      [right; reflexivity|reflexivity|discriminate].
  - apply (proj2 (proj2 (get_name_from_metadata_cases [("Vendor", "Databricks")])));
      left; reflexivity.
Defined.

(** C9 as stated fails: with the [RunName] key present and its value empty,
    the result is not "job-" followed by that value but the cluster name. *)
Lemma empty_run_name_is_skipped :
  str_get [("RunName", ""); ("ClusterName", "prod-cluster")] JOB_NAME_KEY = Some "" /\
  get_name_from_metadata [("RunName", ""); ("ClusterName", "prod-cluster")]
    = Some "prod-cluster" /\
  get_name_from_metadata [("RunName", ""); ("ClusterName", "prod-cluster")]
    <> Some ("job-" ++ "").
Proof. split; [reflexivity|]. split; [reflexivity|discriminate]. Qed.

(** ** [get_webui_address] *)

Lemma has_eq_cons (c : ascii) (t : string) :
  has_eq (String c t) = Ascii.eqb c "=" || has_eq t.
Proof.
  unfold has_eq. cbn [PyStr.contains String.prefix].
  destruct (ascii_dec "=" c) as [<- | Hne].
  - destruct t; reflexivity.
  - destruct (Ascii.eqb_spec c "="); [congruence|].
    destruct t; reflexivity.
Qed.

(** A line with an equals sign splits at the first one; a line without does
    not split. *)
Lemma split_eq1_spec (line : string) :
  if has_eq line
  then exists k v, PyStr.split_eq1 line = [k; v] /\
                   line = (k ++ "=" ++ v)%string /\ has_eq k = false
  else PyStr.split_eq1 line = [line].
Proof.
  induction line as [|c t IH]; [reflexivity|].
  rewrite has_eq_cons. cbn [PyStr.split_eq1].
  destruct (Ascii.eqb_spec c "=") as [-> | Hne]; cbn [orb].
  - exists EmptyString, t. repeat split; reflexivity.
  - destruct (has_eq t).
    + destruct IH as (k & v & -> & -> & Hk).
      exists (String c k), v. repeat split.
      rewrite has_eq_cons, Hk.
      destruct (Ascii.eqb_spec c "="); [contradiction|reflexivity].
    + rewrite IH. reflexivity.
Qed.

Lemma strip_prefix_key (p k v : string) :
  has_eq p = false -> has_eq k = false ->
  strip_prefix (p ++ "=") (k ++ "=" ++ v) = if String.eqb k p then Some v else None.
Proof.
  revert k. induction p as [|a p IH]; intros k Hp Hk.
  - destruct k as [|c k]; [reflexivity|].
    rewrite has_eq_cons in Hk. apply orb_false_elim in Hk as [Hc _].
    cbn [append strip_prefix String.eqb]. rewrite Ascii.eqb_sym, Hc. reflexivity.
  - rewrite has_eq_cons in Hp. apply orb_false_elim in Hp as [Ha Hp].
    destruct k as [|c k].
    + cbn [append strip_prefix String.eqb]. rewrite Ha. reflexivity.
    + rewrite has_eq_cons in Hk. apply orb_false_elim in Hk as [Hc Hk].
      cbn [append strip_prefix String.eqb].
      rewrite (Ascii.eqb_sym c a).
      destruct (Ascii.eqb a c); [apply IH; assumption|reflexivity].
Qed.

(** The pairs of line 73 when every line splits, and the error when one
    does not. *)
Lemma kvs_of_lines (lines : list string) :
  if forallb has_eq lines
  then exists kvs, kvs_of (map PyStr.split_eq1 lines) = Ok kvs /\
                   lines = map (fun kv => (fst kv ++ "=" ++ snd kv)%string) kvs /\
                   forallb (fun kv => negb (has_eq (fst kv))) kvs = true
  else kvs_of (map PyStr.split_eq1 lines) = Raise ValueError.
Proof.
  induction lines as [|l t IH]; [exists []; auto|].
  cbn [forallb map kvs_of].
  pose proof (split_eq1_spec l) as Hl.
  destruct (has_eq l); cbn [andb].
  - destruct Hl as (k & v & -> & -> & Hk). cbn [kv_of rbind].
    destruct (forallb has_eq t).
    + destruct IH as (kvs & -> & -> & Hall).
      exists ((k, v) :: kvs). cbn [rbind map forallb fst snd]. rewrite Hk, Hall. auto.
    + rewrite IH. reflexivity.
  - rewrite Hl. reflexivity.
Qed.

Lemma props_getitem_app (d : list (string * string)) (k' v' k : string) :
  props_getitem (d ++ [(k', v')]) k =
  match props_getitem d k with
  | Ok v => Ok v
  | Raise _ => if String.eqb k' k then Ok v' else Raise (KeyError (JStr k))
  end.
Proof.
  induction d as [|[k0 v0] d IH]; [reflexivity|].
  cbn [app props_getitem]. destruct (String.eqb k0 k); [reflexivity|exact IH].
Qed.

Lemma has_eq_HOST_KEY_NAME : has_eq HOST_KEY_NAME = false.
Proof. reflexivity. Qed.

(** Looking the host key up in the dictionary of the lines finds the value
    on the last line that starts with the key. *)
Lemma props_getitem_host (kvs : list (string * string)) :
  forallb (fun kv => negb (has_eq (fst kv))) kvs = true ->
  props_getitem (rev kvs) HOST_KEY_NAME =
  match host_of_lines (map (fun kv => (fst kv ++ "=" ++ snd kv)%string) kvs) with
  | Some host => Ok host
  | None => Raise (KeyError (JStr HOST_KEY_NAME))
  end.
Proof.
  induction kvs as [|[k v] kvs IH]; [reflexivity|].
  cbn [forallb fst snd]. intros H. apply andb_prop in H as [Hk Hall].
  apply negb_true_iff in Hk.
  cbn [rev map host_of_lines fst snd]. rewrite props_getitem_app, (IH Hall).
  destruct (host_of_lines _) as [h|]; [reflexivity|].
  rewrite (strip_prefix_key HOST_KEY_NAME k v has_eq_HOST_KEY_NAME Hk).
  destruct (String.eqb k HOST_KEY_NAME); reflexivity.
Qed.

Lemma webui_address_of_spec (properties : string) :
  webui_address_of properties =
  if forallb has_eq (PyStr.splitlines properties)
  then Ok (option_map (fun host => (host ++ ":40001")%string)
                      (host_of_lines (PyStr.splitlines properties)))
  else Raise (webui_address_failure properties).
Proof.
  unfold webui_address_of, props_dict.
  pose proof (kvs_of_lines (PyStr.splitlines properties)) as H.
  destruct (forallb has_eq (PyStr.splitlines properties)).
  - destruct H as (kvs & -> & -> & Hall). cbn [rbind].
    rewrite (props_getitem_host kvs Hall).
    destruct (host_of_lines _) as [h|]; reflexivity.
  - rewrite H. reflexivity.
Qed.

(** C4.  [get_webui_address], on a readable file with contents
    [properties]: when every line splits as key=value it returns the value
    of the host key joined to the port 40001 by a colon, or [None] when no
    line has the host key; when some line does not split it raises the
    discovery failure whose message carries the contents. *)
Theorem get_webui_address_cases (env : Env) (st : state) (properties : string) :
  open_read env (st_world st) DATABRICKS_METRICS_PROP_PATH = Some properties ->
  (forallb has_eq (PyStr.splitlines properties) = true ->
   (forall host,
       host_of_lines (PyStr.splitlines properties) = Some host ->
       fst (get_webui_address env st) = Ok (Some (host ++ ":40001")%string)) /\
   (host_of_lines (PyStr.splitlines properties) = None ->
    fst (get_webui_address env st) = Ok None)) /\
  (forallb has_eq (PyStr.splitlines properties) = false ->
   fst (get_webui_address env st) =
   Raise (DatabricksJobNameDiscoverException
            [Lit "Failed to get Databricks webui address properties=";
             Repr (JStr properties)])).
Proof.
  intros Hread.
  assert (E : fst (get_webui_address env st) = webui_address_of properties).
  { unfold get_webui_address, bind, read_file, lift. rewrite Hread. reflexivity. }
  rewrite E, webui_address_of_spec.
  split.
  - intros ->. split.
    + intros host ->. reflexivity.
    + intros ->. reflexivity.
  - intros ->. reflexivity.
Qed.

Lemma get_webui_address_cases_witness :
  fst (get_webui_address Demo.ready (Demo.fresh true)) = Ok (Some "10.0.0.7:40001") /\
  fst (get_webui_address (Demo.with_file "spark.master=local") (Demo.fresh true)) = Ok None /\
  fst (get_webui_address (Demo.with_file "not a properties file") (Demo.fresh true)) =
  Raise (DatabricksJobNameDiscoverException
           [Lit "Failed to get Databricks webui address properties=";
            Repr (JStr "not a properties file")]).
Proof.
  split; [|split].
  - exact (proj1 (proj1 (get_webui_address_cases Demo.ready (Demo.fresh true)
                           Demo.metrics_file eq_refl) eq_refl) "10.0.0.7" eq_refl).
  - exact (proj2 (proj1 (get_webui_address_cases (Demo.with_file "spark.master=local")
                           (Demo.fresh true) "spark.master=local" eq_refl) eq_refl) eq_refl).
  - exact (proj2 (get_webui_address_cases (Demo.with_file "not a properties file")
                    (Demo.fresh true) "not a properties file" eq_refl) eq_refl).
Defined.

(** ** Extraction of the tags *)















(** ** Strings in, strings out *)

Lemma str_to_str_set (d : pydict) (k s : string) :
  str_to_str (Py.dict_set d k (JStr s)) = str_to_str d.
Proof. reflexivity. Qed.








(** ** The contract of [extract_relevant_metadata] *)

Lemma poll_catches (env : Env) (fuel : nat) (start_time : Z) (st st1 : state) (e : exn) :
  (now st - start_time < DATABRICKS_JOBNAME_TIMEOUT_S * NS_PER_S)%Z ->
  _cluster_all_tags_metadata env st = (Raise e, st1) ->
  poll env (S fuel) start_time st = Some (Ok None, logged EXCEPTION (handler_msg e) st1).
Proof.
  intros Hlt Hraise. cbn [poll]. fold (now st).
  destruct (Z.ltb_spec (now st - start_time) (DATABRICKS_JOBNAME_TIMEOUT_S * NS_PER_S));
    [|lia].
  rewrite loop_body_eq, Hraise. reflexivity.
Qed.




(** ** Polling until the deadline *)

Section Polling.
Variable env : Env.

Lemma loop_body_not_ready (st : state) :
  not_ready env st ->
  loop_body env st =
  (Ok (if enable_retries st then Continue else Break), next_poll env st).
Proof.
  intros (props & st1 & Hrun & Hfalse).
  rewrite loop_body_eq. unfold next_poll.
  pose proof (steady_cluster_all_tags_metadata env st) as [_ Hflag].
  rewrite Hrun in *. cbn [snd] in *. rewrite Hfalse, Hflag. reflexivity.
Qed.

Lemma polls_S (n : nat) (st : state) :
  polls env (S n) st = next_poll env (polls env n st).
Proof. reflexivity. Qed.

Lemma now_next_poll (st : state) :
  (now st + RETRY_INTERVAL_S * NS_PER_S <= now (next_poll env st))%Z.
Proof.
  unfold next_poll.
  pose proof (steady_cluster_all_tags_metadata env st) as [Hn _].
  pose proof (now_slept env (snd (_cluster_all_tags_metadata env st))). lia.
Qed.

Lemma now_polls_mono (st : state) (i k : nat) :
  (now (polls env i st) <= now (polls env (i + k) st))%Z.
Proof.
  induction k as [|k IH]; [rewrite Nat.add_0_r; lia|].
  rewrite Nat.add_succ_r, polls_S.
  pose proof (now_next_poll (polls env (i + k) st)) as H.
  unfold RETRY_INTERVAL_S, NS_PER_S in H. lia.
Qed.

Lemma enable_retries_next_poll (st : state) :
  enable_retries (next_poll env st) = enable_retries st.
Proof.
  unfold next_poll.
  pose proof (steady_cluster_all_tags_metadata env st) as [_ Hflag].
  exact Hflag.
Qed.

Lemma enable_retries_polls (n : nat) (st : state) :
  enable_retries (polls env n st) = enable_retries st.
Proof.
  induction n as [|n IH]; [reflexivity|].
  rewrite polls_S, enable_retries_next_poll. exact IH.
Qed.

Lemma poll_after_deadline (fuel : nat) (start_time : Z) (st : state) :
  (DATABRICKS_JOBNAME_TIMEOUT_S * NS_PER_S <= now st - start_time)%Z ->
  poll env fuel start_time st = Some (Ok None, logged INFO TIMEOUT_MSG st).
Proof.
  intros H. destruct fuel; cbn [poll]; fold (now st);
    destruct (Z.ltb_spec (now st - start_time) (DATABRICKS_JOBNAME_TIMEOUT_S * NS_PER_S));
    solve [lia | reflexivity].
Qed.

(** From the [j]-th round on, at most [m] more rounds reach the deadline. *)
Lemma poll_not_ready (st0 : state) (start_time : Z) :
  enable_retries st0 = true ->
  (forall n, (n < MAX_ATTEMPTS)%nat ->
             (now (polls env n st0) - start_time
                < DATABRICKS_JOBNAME_TIMEOUT_S * NS_PER_S)%Z ->
             not_ready env (polls env n st0)) ->
  forall (m j : nat),
    (j + m <= MAX_ATTEMPTS)%nat ->
    (DATABRICKS_JOBNAME_TIMEOUT_S * NS_PER_S - (now (polls env j st0) - start_time)
       <= Z.of_nat m * NS_PER_S)%Z ->
    exists n,
      (j <= n <= j + m)%nat /\
      (forall fuel, (n - j <= fuel)%nat ->
         poll env fuel start_time (polls env j st0)
           = Some (Ok None, logged INFO TIMEOUT_MSG (polls env n st0))) /\
      (DATABRICKS_JOBNAME_TIMEOUT_S * NS_PER_S <= now (polls env n st0) - start_time)%Z /\
      (forall i, (j <= i < n)%nat ->
         (now (polls env i st0) - start_time < DATABRICKS_JOBNAME_TIMEOUT_S * NS_PER_S)%Z).
Proof.
  intros Hflag Hnr m. induction m as [|m IH]; intros j Hj Hrem.
  - exists j. split; [lia|]. split; [|split].
    + intros fuel _. apply poll_after_deadline. lia.
    + lia.
    + intros i Hi. lia.
  - destruct (Z.ltb_spec (now (polls env j st0) - start_time)
                (DATABRICKS_JOBNAME_TIMEOUT_S * NS_PER_S)) as [Hlt | Hge].
    + pose proof (now_next_poll (polls env j st0)) as Hstep.
      rewrite <- polls_S in Hstep.
      destruct (IH (S j)) as (n & Hn & Hpoll & Hdead & Hbefore).
      * lia.
      * unfold RETRY_INTERVAL_S in Hstep. lia.
      * exists n. split; [lia|]. split; [|split].
        -- intros fuel Hfuel. destruct fuel as [|fuel]; [lia|].
           cbn [poll]. fold (now (polls env j st0)).
           destruct (Z.ltb_spec (now (polls env j st0) - start_time)
                       (DATABRICKS_JOBNAME_TIMEOUT_S * NS_PER_S)); [|lia].
           rewrite loop_body_not_ready by (apply Hnr; [lia|exact Hlt]).
           rewrite enable_retries_polls, Hflag, <- polls_S.
           apply Hpoll. lia.
        -- exact Hdead.
        -- intros i Hi. destruct (Nat.eq_dec i j) as [-> | Hne]; [exact Hlt|].
           apply Hbefore. lia.
    + exists j. split; [lia|]. split; [|split].
      * intros fuel _. apply poll_after_deadline. exact Hge.
      * exact Hge.
      * intros i Hi. lia.
Qed.

End Polling.

(** C5.  With retries enabled, if every attempt that starts before the
    deadline is not ready, then [extract_relevant_metadata] makes some
    number [n] of attempts, at least one and at most [MAX_ATTEMPTS], sleeps
    [RETRY_INTERVAL_S] after each of them, and returns [None] without
    raising once the time since the start has reached
    [DATABRICKS_JOBNAME_TIMEOUT_S]; before each of the attempts it had not.
    Nothing is supposed of an attempt that would start after the deadline:
    none is made. *)
Theorem polling_times_out (env : Env) (st : state) :
  enable_retries st = true ->
  (forall n, (n < MAX_ATTEMPTS)%nat ->
             (now (polls env n st) - now st
                < DATABRICKS_JOBNAME_TIMEOUT_S * NS_PER_S)%Z ->
             not_ready env (polls env n st)) ->
  exists n,
    (1 <= n <= MAX_ATTEMPTS)%nat /\
    (forall fuel, (n <= fuel)%nat ->
       extract_relevant_metadata env fuel st
         = Some (Ok None, logged INFO TIMEOUT_MSG (polls env n st))) /\
    (DATABRICKS_JOBNAME_TIMEOUT_S * NS_PER_S <= now (polls env n st) - now st)%Z /\
    (forall i, (i < n)%nat ->
       (now (polls env i st) - now st < DATABRICKS_JOBNAME_TIMEOUT_S * NS_PER_S)%Z /\
       let attempted := snd (_cluster_all_tags_metadata env (polls env i st)) in
       trace (st_world (polls env (S i) st))
         = EvSleep RETRY_INTERVAL_S :: trace (st_world attempted) /\
       (now attempted + RETRY_INTERVAL_S * NS_PER_S <= now (polls env (S i) st))%Z).
Proof.
  intros Hflag Hnr.
  destruct (poll_not_ready env st (now st) Hflag Hnr MAX_ATTEMPTS 0)
    as (n & Hn & Hpoll & Hdead & Hbefore).
  - lia.
  - change (polls env 0 st) with st. change (Z.of_nat MAX_ATTEMPTS) with 120%Z.
    unfold DATABRICKS_JOBNAME_TIMEOUT_S, NS_PER_S. lia.
  - assert (Hpos : (1 <= n)%nat).
    { destruct n; [|lia]. change (polls env 0 st) with st in Hdead.
      unfold DATABRICKS_JOBNAME_TIMEOUT_S, NS_PER_S in Hdead. lia. }
    exists n. split; [lia|]. split; [|split].
    + intros fuel Hfuel. unfold extract_relevant_metadata. fold (now st).
      apply (Hpoll fuel). lia.
    + exact Hdead.
    + intros i Hi. split; [apply Hbefore; lia|].
      split; [reflexivity|]. apply now_slept.
Qed.

(** With no application registered, every attempt is not ready. *)
Lemma no_apps_attempt (st : state) :
  _apps_url st = None \/ _apps_url st = Some Demo.apps_url ->
  exists st1,
    _cluster_all_tags_metadata Demo.no_apps st = (Ok None, st1) /\
    _apps_url st1 = Some Demo.apps_url.
Proof.
  destruct st as [w retries url]. cbn [_apps_url].
  intros [-> | ->]; eexists; split; reflexivity.
Qed.

Lemma no_apps_polls (n : nat) :
  let st := polls Demo.no_apps n (Demo.fresh true) in
  _apps_url st = None \/ _apps_url st = Some Demo.apps_url.
Proof.
  induction n as [|n IH]; [left; reflexivity|].
  cbn zeta in *. rewrite polls_S. unfold next_poll.
  destruct (no_apps_attempt _ IH) as (st1 & -> & Hurl).
  right. exact Hurl.
Qed.

Lemma no_apps_not_ready (n : nat) :
  not_ready Demo.no_apps (polls Demo.no_apps n (Demo.fresh true)).
Proof.
  destruct (no_apps_attempt _ (no_apps_polls n)) as (st1 & Hrun & _).
  exists None, st1. split; [exact Hrun|reflexivity].
Qed.

(** An endpoint that would be ready after the deadline: the two attempts
    that are made are not ready, a fourth one would be. *)
Lemma sluggish_not_ready (n : nat) :
  (now (polls Demo.sluggish n (Demo.fresh true)) - now (Demo.fresh true)
     < DATABRICKS_JOBNAME_TIMEOUT_S * NS_PER_S)%Z ->
  not_ready Demo.sluggish (polls Demo.sluggish n (Demo.fresh true)).
Proof.
  intros Hlt.
  destruct n as [|[|n]].
  - eexists. eexists. split; vm_compute; reflexivity.
  - eexists. eexists. split; vm_compute; reflexivity.
  - exfalso.
    pose proof (now_polls_mono Demo.sluggish (Demo.fresh true) 2 n) as Hmono.
    change (2 + n)%nat with (S (S n)) in Hmono.
    assert (H2 : now (polls Demo.sluggish 2 (Demo.fresh true)) = 122000000000%Z)
      by (vm_compute; reflexivity).
    assert (H0 : now (Demo.fresh true) = 0%Z) by reflexivity.
    rewrite H2 in Hmono. rewrite H0 in Hlt.
    unfold DATABRICKS_JOBNAME_TIMEOUT_S, NS_PER_S in Hlt. lia.
Qed.

Lemma sluggish_ready_too_late :
  ~ not_ready Demo.sluggish (polls Demo.sluggish 3 (Demo.fresh true)).
Proof.
  intros (props & st1 & Hrun & Hfalse).
  vm_compute in Hrun. injection Hrun as <- _. discriminate Hfalse.
Qed.

Lemma polling_times_out_witness :
  (exists n,
     (1 <= n <= MAX_ATTEMPTS)%nat /\
     (forall fuel, (n <= fuel)%nat ->
        extract_relevant_metadata Demo.no_apps fuel (Demo.fresh true)
          = Some (Ok None, logged INFO TIMEOUT_MSG (polls Demo.no_apps n (Demo.fresh true)))) /\
     (DATABRICKS_JOBNAME_TIMEOUT_S * NS_PER_S
        <= now (polls Demo.no_apps n (Demo.fresh true)) - now (Demo.fresh true))%Z) /\
  ((forall fuel, (2 <= fuel)%nat ->
      extract_relevant_metadata Demo.sluggish fuel (Demo.fresh true)
        = Some (Ok None, logged INFO TIMEOUT_MSG (polls Demo.sluggish 2 (Demo.fresh true)))) /\
   ~ not_ready Demo.sluggish (polls Demo.sluggish 3 (Demo.fresh true))).
Proof.
  split.
  - destruct (polling_times_out Demo.no_apps (Demo.fresh true) eq_refl
                (fun n _ _ => no_apps_not_ready n))
      as (n & Hn & Hrun & Hdead & _).
    exists n. auto.
  - destruct (polling_times_out Demo.sluggish (Demo.fresh true) eq_refl
                (fun n _ => sluggish_not_ready n))
      as (n & Hn & Hrun & Hdead & Hbefore).
    split; [|exact sluggish_ready_too_late].
    assert (H0 : now (Demo.fresh true) = 0%Z) by reflexivity.
    assert (H1 : now (polls Demo.sluggish 1 (Demo.fresh true)) = 61000000000%Z)
      by (vm_compute; reflexivity).
    assert (H2 : now (polls Demo.sluggish 2 (Demo.fresh true)) = 122000000000%Z)
      by (vm_compute; reflexivity).
    assert (En : n = 2%nat).
    { destruct n as [|[|[|n]]].
      - lia.
      - rewrite H1, H0 in Hdead.
        unfold DATABRICKS_JOBNAME_TIMEOUT_S, NS_PER_S in Hdead. lia.
      - reflexivity.
      - destruct (Hbefore 2%nat ltac:(lia)) as [Hlt _].
        rewrite H2, H0 in Hlt.
        unfold DATABRICKS_JOBNAME_TIMEOUT_S, NS_PER_S in Hlt. lia. }
    subst n. exact Hrun.
Defined.

(** ** Single-attempt mode *)

(** C8 on the code.  With retries disabled the loop body is passed through
    once: the chain runs once and its outcome is returned.  But a not-ready
    outcome is followed by the sleep of line 96 before the [break] of line
    104 is reached, so the single attempt is not free of sleeping. *)
Theorem single_attempt (env : Env) (st : state) (fuel : nat) :
  enable_retries st = false ->
  extract_relevant_metadata env (S fuel) st =
  Some (match _cluster_all_tags_metadata env st with
        | (Ok props, st1) =>
            if truthy props then (Ok props, logged INFO SUCCESS_MSG st1)
            else (Ok None, logged INFO TIMEOUT_MSG (slept env st1))
        | (Raise e, st1) => (Ok None, logged EXCEPTION (handler_msg e) st1)
        end).
Proof.
  intros Hflag. unfold extract_relevant_metadata. cbn [poll]. fold (now st).
  replace (now st - now st)%Z with 0%Z by lia.
  change (0 <? DATABRICKS_JOBNAME_TIMEOUT_S * NS_PER_S)%Z with true. cbn iota.
  rewrite loop_body_eq.
  pose proof (steady_cluster_all_tags_metadata env st) as [_ Hsame].
  destruct (_cluster_all_tags_metadata env st) as [[props|e] st1]; cbn [snd] in Hsame.
  - destruct (truthy props); [reflexivity|].
    rewrite Hsame, Hflag. reflexivity.
  - reflexivity.
Qed.

(** With retries disabled and the metrics file not yet deployed, the single
    attempt is followed by a one-second sleep before [None] is returned. *)
Lemma single_attempt_sleeps :
  events_of (extract_relevant_metadata Demo.no_file 1 (Demo.fresh false)) =
  [ EvLog DEBUG "Getting DBX environment properties";
    EvIsFile DATABRICKS_METRICS_PROP_PATH false;
    EvSleep 1;
    EvLog INFO TIMEOUT_MSG ] /\
  count_chain_runs (events_of (extract_relevant_metadata Demo.no_file 1 (Demo.fresh false))) = 1%nat /\
  count_sleeps (events_of (extract_relevant_metadata Demo.no_file 1 (Demo.fresh false))) = 1%nat.
Proof.
  rewrite (single_attempt Demo.no_file (Demo.fresh false) 0 eq_refl).
  repeat split.
Defined.

(** ** HTTP error statuses *)

Lemma raise_for_status_error (resp : Response) :
  (400 <= status_code resp < 600)%Z -> raise_for_status resp = Raise RequestException.
Proof.
  intros [Hlo Hhi]. unfold raise_for_status.
  destruct (Z.leb_spec 400 (status_code resp)); [|lia].
  destruct (Z.ltb_spec (status_code resp) 600); [reflexivity|lia].
Qed.

Lemma spark_apps_json_http_error (env : Env) (st : state) (url : string) (resp : Response) :
  _apps_url st = Some url -> url <> "" ->
  requests_get env (st_world st) url REQUEST_TIMEOUT = Responded resp ->
  (400 <= status_code resp < 600)%Z ->
  _spark_apps_json env st = (Ok JNull, pass env (EvGet url REQUEST_TIMEOUT) 0 st).
Proof.
  intros Hurl Hne Hget Hstatus.
  unfold _spark_apps_json, bind, get_apps_url, try_except, _request_get.
  rewrite Hurl. destruct url as [|c url]; [congruence|].
  rewrite Hget, (raise_for_status_error resp Hstatus). reflexivity.
Qed.

(** C10.  When the applications endpoint answers with a status from 400 to
    599, [_spark_apps_json] returns [None]: the [HTTPError] of
    [raise_for_status] is a [RequestException].  The chain then reports
    not-ready, and the loop body sleeps and, with retries enabled, goes
    round again. *)
Theorem http_error_is_not_ready
    (env : Env) (st s1 s2 : state) (url : string) (resp : Response) :
  isfile env DATABRICKS_METRICS_PROP_PATH st = (Ok true, s1) ->
  _discover_apps_url env s1 = (Ok true, s2) ->
  _apps_url s2 = Some url -> url <> "" ->
  requests_get env (st_world s2) url REQUEST_TIMEOUT = Responded resp ->
  (400 <= status_code resp < 600)%Z ->
  let s3 := pass env (EvGet url REQUEST_TIMEOUT) 0 s2 in
  _spark_apps_json env s2 = (Ok JNull, s3) /\
  _cluster_all_tags_metadata env st = (Ok None, s3) /\
  loop_body env st = (Ok (if enable_retries st then Continue else Break), slept env s3) /\
  (enable_retries st = true ->
   forall fuel start_time,
     (now st - start_time < DATABRICKS_JOBNAME_TIMEOUT_S * NS_PER_S)%Z ->
     poll env (S fuel) start_time st = poll env fuel start_time (slept env s3)).
Proof.
  intros Hfile Hdisc Hurl Hne Hget Hstatus s3.
  pose proof (spark_apps_json_http_error env s2 url resp Hurl Hne Hget Hstatus) as Hjson.
  assert (Hchain : _cluster_all_tags_metadata env st = (Ok None, s3)).
  { unfold _cluster_all_tags_metadata, bind. rewrite Hfile. cbn [negb].
    rewrite Hdisc. cbn [negb]. rewrite Hjson. reflexivity. }
  assert (Hbody : loop_body env st
                  = (Ok (if enable_retries st then Continue else Break), slept env s3)).
  { rewrite (loop_body_not_ready env st).
    - unfold next_poll. rewrite Hchain. reflexivity.
    - exists None, s3. split; [exact Hchain|reflexivity]. }
  split; [exact Hjson|]. split; [exact Hchain|]. split; [exact Hbody|].
  intros Hflag fuel start_time Hlt. cbn [poll]. fold (now st).
  destruct (Z.ltb_spec (now st - start_time) (DATABRICKS_JOBNAME_TIMEOUT_S * NS_PER_S));
    [|lia].
  rewrite Hbody, Hflag. reflexivity.
Qed.

Lemma http_error_is_not_ready_witness :
  exists s3,
    _spark_apps_json Demo.unavailable
      (snd (_discover_apps_url Demo.unavailable
              (snd (isfile Demo.unavailable DATABRICKS_METRICS_PROP_PATH (Demo.fresh true)))))
      = (Ok JNull, s3) /\
    _cluster_all_tags_metadata Demo.unavailable (Demo.fresh true) = (Ok None, s3) /\
    loop_body Demo.unavailable (Demo.fresh true) = (Ok Continue, slept Demo.unavailable s3).
Proof.
  eexists.
  destruct (http_error_is_not_ready Demo.unavailable (Demo.fresh true) _ _ Demo.apps_url
              (mkResponse 503 "Service Unavailable" None)
              eq_refl eq_refl eq_refl) as (H1 & H2 & H3 & _).
  - discriminate.
  - reflexivity.
  - cbn; lia.
  - split; [exact H1|]. split; [exact H2|exact H3].
Defined.

(** ** The stages of the chain *)

(** X1.  The address is resolved once: a discovered URL is reused without
    reading the file again; with no URL yet, a file that names the host
    gives the URL of the applications endpoint on port 40001, and a file
    that splits but lacks the host key leaves the wrapper without one. *)
Theorem discover_apps_url_cases (env : Env) (st : state) :
  (forall url, _apps_url st = Some url -> _discover_apps_url env st = (Ok true, st)) /\
  (forall properties,
      _apps_url st = None ->
      open_read env (st_world st) DATABRICKS_METRICS_PROP_PATH = Some properties ->
      forallb has_eq (PyStr.splitlines properties) = true ->
      match host_of_lines (PyStr.splitlines properties) with
      | Some host =>
          fst (_discover_apps_url env st) = Ok true /\
          _apps_url (snd (_discover_apps_url env st))
            = Some ("http://" ++ host ++ ":40001/api/v1/applications")
      | None =>
          fst (_discover_apps_url env st) = Ok false /\
          _apps_url (snd (_discover_apps_url env st)) = None
      end).
Proof.
  split.
  - intros url Hurl. unfold _discover_apps_url, bind, get_apps_url. rewrite Hurl. reflexivity.
  - intros properties Hnone Hread Hsplit.
    assert (E : get_webui_address env st =
                (webui_address_of properties,
                 pass env (EvOpen DATABRICKS_METRICS_PROP_PATH) 0 st)).
    { unfold get_webui_address, bind, read_file, lift. rewrite Hread. reflexivity. }
    unfold _discover_apps_url, bind, get_apps_url. cbn beta.
    rewrite Hnone, E, webui_address_of_spec, Hsplit.
    destruct (host_of_lines (PyStr.splitlines properties)) as [host|];
      cbn [option_map]; [|split; [reflexivity|exact Hnone]].
    split; [reflexivity|].
    cbn [set_apps_url log ret snd _apps_url]. unfold SPARKUI_APPS_URL.
    rewrite append_assoc. reflexivity.
Qed.

Lemma discover_apps_url_cases_witness :
  _discover_apps_url Demo.ready (mkState (mkWorld 0 []) true (Some Demo.apps_url))
    = (Ok true, mkState (mkWorld 0 []) true (Some Demo.apps_url)) /\
  fst (_discover_apps_url Demo.ready (Demo.fresh true)) = Ok true /\
  _apps_url (snd (_discover_apps_url Demo.ready (Demo.fresh true))) = Some Demo.apps_url.
Proof.
  split.
  - exact (proj1 (discover_apps_url_cases Demo.ready
                    (mkState (mkWorld 0 []) true (Some Demo.apps_url)))
             Demo.apps_url eq_refl).
  - exact (proj2 (discover_apps_url_cases Demo.ready (Demo.fresh true))
             Demo.metrics_file eq_refl eq_refl eq_refl).
Defined.

(** X2.  The lister: a failed request is not-ready; a body that is JSON is
    returned; a body that is not JSON is not-ready when it carries the
    starting-up marker and the discovery failure, with the body in its
    message, when it does not. *)
Theorem spark_apps_json_cases (env : Env) (st : state) (url : string) :
  _apps_url st = Some url -> url <> "" ->
  let st' := pass env (EvGet url REQUEST_TIMEOUT) 0 st in
  (requests_get env (st_world st) url REQUEST_TIMEOUT = RequestFailed ->
   _spark_apps_json env st = (Ok JNull, st')) /\
  (forall resp,
      requests_get env (st_world st) url REQUEST_TIMEOUT = Responded resp ->
      raise_for_status resp = Ok resp ->
      match json_body resp with
      | Some apps => _spark_apps_json env st = (Ok apps, st')
      | None =>
          _spark_apps_json env st =
          if PyStr.contains SPARK_STARTING_UP (text resp) then (Ok JNull, st')
          else (Raise (DatabricksJobNameDiscoverException
                         [Lit "Failed to parse apps url response, query response.text=";
                          Repr (JStr (text resp))]), st')
      end).
Proof.
  intros Hurl Hne st'.
  unfold _spark_apps_json, bind, get_apps_url, try_except, _request_get.
  rewrite Hurl. destruct url as [|c url]; [congruence|].
  split.
  - intros ->. reflexivity.
  - intros resp -> ->. cbn [ret].
    destruct (json_body resp); [reflexivity|].
    destruct (PyStr.contains SPARK_STARTING_UP (text resp)); reflexivity.
Qed.

Lemma spark_apps_json_cases_witness :
  exists st',
    _spark_apps_json Demo.no_file (mkState (mkWorld 0 []) true (Some Demo.apps_url))
      = (Ok JNull, st') /\
    _spark_apps_json Demo.no_apps (mkState (mkWorld 0 []) true (Some Demo.apps_url))
      = (Ok (JArr []), st').
Proof.
  eexists. split.
  - exact (proj1 (spark_apps_json_cases Demo.no_file
                    (mkState (mkWorld 0 []) true (Some Demo.apps_url)) Demo.apps_url
                    eq_refl ltac:(discriminate)) eq_refl).
  - exact (proj2 (spark_apps_json_cases Demo.no_apps
                    (mkState (mkWorld 0 []) true (Some Demo.apps_url)) Demo.apps_url
                    eq_refl ltac:(discriminate)) _ eq_refl eq_refl).
Defined.

(** X3.  The fetcher tolerates nothing: whatever goes wrong with the request for
    the environment of an application is the discovery failure naming the
    URL, and a body that is not JSON is the discovery failure carrying the
    body. *)
Theorem spark_app_env_json_cases (env : Env) (st : state) (apps_url : string) (app_id : json) :
  _apps_url st = Some apps_url ->
  let env_url := (apps_url ++ "/" ++ fmt env app_id ++ "/environment")%string in
  let st' := pass env (EvGet env_url REQUEST_TIMEOUT) 0 st in
  match requests_get env (st_world st) env_url REQUEST_TIMEOUT with
  | Responded resp =>
      match raise_for_status resp, json_body resp with
      | Ok _, Some e => _spark_app_env_json env app_id st = (Ok e, st')
      | Ok _, None =>
          _spark_app_env_json env app_id st =
          (Raise (DatabricksJobNameDiscoverException
                    [Lit "Environment request failed response.text=";
                     Repr (JStr (text resp))]), st')
      | Raise _, _ =>
          _spark_app_env_json env app_id st =
          (Raise (DatabricksJobNameDiscoverException
                    [Lit "Environment request failed env_url="; Repr (JStr env_url)]), st')
      end
  | RequestFailed | RequestCrashed =>
      _spark_app_env_json env app_id st =
      (Raise (DatabricksJobNameDiscoverException
                [Lit "Environment request failed env_url="; Repr (JStr env_url)]), st')
  end.
Proof.
  intros Hurl env_url st'.
  unfold _spark_app_env_json, bind, get_apps_url, try_except, _request_get.
  rewrite Hurl. fold env_url.
  destruct (requests_get env (st_world st) env_url REQUEST_TIMEOUT) as [resp| |];
    try reflexivity.
  unfold raise_for_status.
  destruct ((400 <=? status_code resp) && (status_code resp <? 600))%Z; [reflexivity|].
  destruct (json_body resp); reflexivity.
Qed.

Lemma spark_app_env_json_cases_witness :
  exists st',
    _spark_app_env_json Demo.no_apps (JStr "app-1")
      (mkState (mkWorld 0 []) true (Some Demo.apps_url))
    = (Raise (DatabricksJobNameDiscoverException
                [Lit "Environment request failed env_url=";
                 Repr (JStr "http://10.0.0.7:40001/api/v1/applications/app-1/environment")]),
       st').
Proof.
  eexists.
  exact (spark_app_env_json_cases Demo.no_apps
           (mkState (mkWorld 0 []) true (Some Demo.apps_url)) Demo.apps_url (JStr "app-1")
           eq_refl).
Defined.

(** ** Orderly effects *)

Lemma orderly_refl (st : state) : orderly st st.
Proof.
  split; [auto|]. split; [congruence|].
  exists []. split; [reflexivity|]. split; [constructor|reflexivity].
Qed.

Lemma allowed_mono (o o' : option string) (ev : event) :
  (forall u, o = Some u -> o' = Some u) -> allowed o ev -> allowed o' ev.
Proof.
  intros Hmono. destruct ev; cbn; auto.
  intros (Ht & u & Hu & Hurl). split; [exact Ht|]. exists u. auto.
Qed.

Lemma count_opens_app (l1 l2 : list event) :
  count_opens (l1 ++ l2) = (count_opens l1 + count_opens l2)%nat.
Proof. unfold count_opens. rewrite filter_app, length_app. reflexivity. Qed.

Lemma orderly_trans (a b c : state) : orderly a b -> orderly b c -> orderly a c.
Proof.
  intros (Hkeep1 & Hnew1 & new1 & Ht1 & Hall1 & Hopen1)
         (Hkeep2 & Hnew2 & new2 & Ht2 & Hall2 & Hopen2).
  split; [auto|]. split.
  - intros Hnone u Hu.
    destruct (_apps_url b) as [u'|] eqn:Eb.
    + rewrite (Hkeep2 u' eq_refl) in Hu. injection Hu as <-.
      apply (Hnew1 Hnone u' eq_refl).
    + apply (Hnew2 eq_refl u Hu).
  - exists (new2 ++ new1)%list. split; [|split].
    + rewrite Ht2, Ht1. apply app_assoc.
    + apply Forall_app. split; [exact Hall2|].
      eapply Forall_impl; [|exact Hall1].
      intros ev. apply allowed_mono. exact Hkeep2.
    + intros Hknown. rewrite count_opens_app, (Hopen1 Hknown).
      rewrite Hopen2; [reflexivity|].
      destruct (_apps_url a) as [u|] eqn:Ea; [|congruence].
      rewrite (Hkeep1 u eq_refl). discriminate.
Qed.

(** A blocking call that is allowed, and is not a read of the file unless
    no target is known, is orderly. *)
Lemma orderly_pass (env : Env) (ev : event) (secs : Z) (st : state) :
  allowed (_apps_url st) ev ->
  (is_open ev = false \/ _apps_url st = None) ->
  orderly st (pass env ev secs st).
Proof.
  intros Hal Hopen. split; [auto|]. split; [cbn; congruence|].
  exists [ev]. split; [reflexivity|]. split; [constructor; [exact Hal|constructor]|].
  intros Hknown. destruct Hopen as [Hno | Hnone]; [|contradiction].
  unfold count_opens. cbn [filter]. rewrite Hno. reflexivity.
Qed.

Lemma webui_address_form (properties addr : string) :
  webui_address_of properties = Ok (Some addr) ->
  exists host, addr = (host ++ ":40001")%string.
Proof.
  unfold webui_address_of.
  destruct (rbind _ _) as [host|e].
  - intros H. injection H as <-. exists host. reflexivity.
  - destruct e; try discriminate. destruct (Py.is_str _ _); discriminate.
Qed.

Section Order.
Variable env : Env.

Lemma keeps_order_ret {A} (a : A) : keeps_order (ret a).
Proof. intros st. apply orderly_refl. Qed.

Lemma keeps_order_raise {A} (e : exn) : keeps_order (@raise A e).
Proof. intros st. apply orderly_refl. Qed.

Lemma keeps_order_lift {A} (r : res A) : keeps_order (lift r).
Proof. intros st. apply orderly_refl. Qed.

Lemma keeps_order_get_apps_url : keeps_order get_apps_url.
Proof. intros st. apply orderly_refl. Qed.

Lemma keeps_order_get_enable_retries : keeps_order get_enable_retries.
Proof. intros st. apply orderly_refl. Qed.

Lemma keeps_order_bind {A B} (m : M A) (k : A -> M B) :
  keeps_order m -> (forall a, keeps_order (k a)) -> keeps_order (bind m k).
Proof.
  intros Hm Hk st. unfold bind. specialize (Hm st).
  destruct (m st) as [[a|e] st1]; cbn [snd] in *; [|exact Hm].
  eapply orderly_trans; [exact Hm|apply Hk].
Qed.

Lemma keeps_order_try_except {A} (m : M A) (h : exn -> M A) :
  keeps_order m -> (forall e, keeps_order (h e)) -> keeps_order (try_except m h).
Proof.
  intros Hm Hh st. unfold try_except. specialize (Hm st).
  destruct (m st) as [[a|e] st1]; cbn [snd] in *; [exact Hm|].
  eapply orderly_trans; [exact Hm|apply Hh].
Qed.

Lemma keeps_order_log (level : loglevel) (msg : string) : keeps_order (log level msg).
Proof.
  intros st. split; [auto|]. split; [cbn; congruence|].
  exists [EvLog level msg]. split; [reflexivity|].
  split; [repeat constructor|reflexivity].
Qed.

Lemma keeps_order_isfile : keeps_order (isfile env DATABRICKS_METRICS_PROP_PATH).
Proof. intros st. apply orderly_pass; [reflexivity|left; reflexivity]. Qed.

Lemma keeps_order_time_sleep : keeps_order (time_sleep env RETRY_INTERVAL_S).
Proof. intros st. apply orderly_pass; [reflexivity|left; reflexivity]. Qed.

Lemma keeps_order_discover_apps_url : keeps_order (_discover_apps_url env).
Proof.
  intros st. unfold _discover_apps_url, bind, get_apps_url. cbn beta.
  destruct (_apps_url st) as [u|] eqn:Eu; [apply orderly_refl|].
  unfold get_webui_address, bind, read_file, lift.
  destruct (open_read env (st_world st) DATABRICKS_METRICS_PROP_PATH) as [properties|].
  - destruct (webui_address_of properties) as [[addr|]|e] eqn:Ea; cbn [snd].
    + split; [rewrite Eu; discriminate|]. split.
      * intros _ u Hu. cbn in Hu. injection Hu as <-.
        destruct (webui_address_form properties addr Ea) as (host & ->).
        exists host. reflexivity.
      * exists [EvLog DEBUG "Databricks SparkUI address";
                EvOpen DATABRICKS_METRICS_PROP_PATH].
        split; [reflexivity|]. split; [repeat constructor|].
        rewrite Eu. congruence.
    + apply orderly_pass; [reflexivity|right; exact Eu].
    + apply orderly_pass; [reflexivity|right; exact Eu].
  - apply orderly_pass; [reflexivity|right; exact Eu].
Qed.

Lemma keeps_order_spark_apps_json : keeps_order (_spark_apps_json env).
Proof.
  intros st. unfold _spark_apps_json, bind, get_apps_url, try_except. cbn beta.
  destruct (_apps_url st) as [[|c url]|] eqn:Eu; try apply orderly_refl.
  assert (Hget : orderly st (snd (_request_get env (String c url) st))).
  { apply orderly_pass; [|left; reflexivity].
    split; [reflexivity|]. exists (String c url). auto. }
  unfold _request_get in *. cbn [snd fst] in *.
  destruct (requests_get env (st_world st) (String c url) REQUEST_TIMEOUT) as [resp| |];
    cbn [snd ret raise]; try exact Hget.
  destruct (raise_for_status resp) as [r|e]; cbn [snd ret raise].
  - destruct (json_body r); [exact Hget|].
    destruct (PyStr.contains SPARK_STARTING_UP (text r)); exact Hget.
  - destruct e; exact Hget.
Qed.

Lemma keeps_order_spark_app_env_json (app_id : json) :
  keeps_order (_spark_app_env_json env app_id).
Proof.
  intros st. unfold _spark_app_env_json, bind, get_apps_url, try_except. cbn beta.
  destruct (_apps_url st) as [u|] eqn:Eu; [|apply orderly_refl].
  set (env_url := (u ++ "/" ++ fmt env app_id ++ "/environment")%string).
  assert (Hget : orderly st (snd (_request_get env env_url st))).
  { apply orderly_pass; [|left; reflexivity].
    split; [reflexivity|]. exists u. split; [exact Eu|].
    right. exists (fmt env app_id). reflexivity. }
  unfold _request_get in *. cbn [snd fst] in *.
  destruct (requests_get env (st_world st) env_url REQUEST_TIMEOUT) as [resp| |];
    cbn [snd ret raise]; try exact Hget.
  destruct (raise_for_status resp) as [r|e]; cbn [snd ret raise]; [|exact Hget].
  destruct (json_body r); exact Hget.
Qed.

Ltac order_step :=
  first
    [ apply keeps_order_ret | apply keeps_order_raise | apply keeps_order_lift
    | apply keeps_order_log | apply keeps_order_isfile | apply keeps_order_time_sleep
    | apply keeps_order_get_apps_url | apply keeps_order_get_enable_retries
    | apply keeps_order_discover_apps_url | apply keeps_order_spark_apps_json
    | apply keeps_order_spark_app_env_json
    | apply keeps_order_bind; [|intros ?]
    | apply keeps_order_try_except; [|intros ?]
    | match goal with
      | |- keeps_order (match ?x with _ => _ end) => destruct x
      end ].

Lemma keeps_order_cluster_all_tags_metadata : keeps_order (_cluster_all_tags_metadata env).
Proof. unfold _cluster_all_tags_metadata. repeat order_step. Qed.

Lemma keeps_order_loop_body : keeps_order (loop_body env).
Proof.
  unfold loop_body, attempt.
  repeat first [apply keeps_order_cluster_all_tags_metadata | order_step].
Qed.

Lemma keeps_order_after_loop : keeps_order after_loop.
Proof. unfold after_loop. repeat order_step. Qed.

Lemma orderly_poll (fuel : nat) :
  forall (start_time : Z) (st st' : state) (r : res (option pydict)),
    poll env fuel start_time st = Some (r, st') -> orderly st st'.
Proof.
  induction fuel as [|fuel IH]; intros start_time st st' r; cbn [poll];
    destruct (_ <? _)%Z.
  - discriminate.
  - intros H. injection H as _ <-. apply keeps_order_after_loop.
  - pose proof (keeps_order_loop_body st) as Hbody.
    destruct (loop_body env st) as [[[x| |]|e] st1]; cbn [snd] in Hbody; intros H.
    + injection H as _ <-. exact Hbody.
    + injection H as _ <-. eapply orderly_trans; [exact Hbody|].
      apply keeps_order_after_loop.
    + eapply orderly_trans; [exact Hbody|]. eapply IH; exact H.
    + injection H as _ <-. exact Hbody.
  - intros H. injection H as _ <-. apply keeps_order_after_loop.
Qed.

End Order.

(** X4.  During a discovery the polling target, once known, is never
    changed and the metrics file is not read again; a target found during
    the discovery is the applications URL of some host on port 40001. *)
Theorem discovery_keeps_target
    (env : Env) (fuel : nat) (st st' : state) (r : res (option pydict)) :
  extract_relevant_metadata env fuel st = Some (r, st') ->
  (forall u, _apps_url st = Some u ->
             _apps_url st' = Some u /\ opens_of st' = opens_of st) /\
  (_apps_url st = None ->
   forall u, _apps_url st' = Some u ->
             exists host, u = ("http://" ++ host ++ ":40001/api/v1/applications")%string).
Proof.
  intros H. apply orderly_poll in H as (Hkeep & Hnew & new & Htrace & _ & Hopen).
  split.
  - intros u Hu. split; [exact (Hkeep u Hu)|].
    unfold opens_of. rewrite Htrace, count_opens_app, Hopen; [reflexivity|].
    rewrite Hu. discriminate.
  - intros Hnone u Hu. destruct (Hnew Hnone u Hu) as (host & ->).
    exists host. unfold SPARKUI_APPS_URL. rewrite append_assoc. reflexivity.
Qed.

Lemma discovery_keeps_target_witness :
  (exists r st',
      extract_relevant_metadata Demo.ready 1
        (mkState (mkWorld 0 []) true (Some Demo.apps_url)) = Some (r, st') /\
      _apps_url st' = Some Demo.apps_url /\ opens_of st' = 0%nat) /\
  (exists r st' host,
      extract_relevant_metadata Demo.ready 1 (Demo.fresh true) = Some (r, st') /\
      _apps_url st' = Some ("http://" ++ host ++ ":40001/api/v1/applications")%string).
Proof.
  split.
  - eexists. eexists. split; [vm_compute; reflexivity|].
    refine (proj1 (discovery_keeps_target Demo.ready 1
                     (mkState (mkWorld 0 []) true (Some Demo.apps_url)) _ _ _)
              Demo.apps_url eq_refl).
    vm_compute. reflexivity.
  - assert (H : extract_relevant_metadata Demo.ready 1 (Demo.fresh true)
                = Some (Ok (Some _), mkState _ true (Some Demo.apps_url)))
      by (vm_compute; reflexivity).
    destruct (proj2 (discovery_keeps_target Demo.ready 1 (Demo.fresh true) _ _ H)
                eq_refl Demo.apps_url eq_refl) as (host & Hhost).
    eexists. eexists. exists host. split; [exact H|]. cbn [_apps_url]. f_equal. exact Hhost.
Defined.

(** X5.  Whatever a discovery does is added to the trace and is one of:
    the test for the metrics file, a read of the metrics file, a GET with
    the request timeout sent to the polling target or to the environment of
    an application below it, a sleep of the retry interval, a log record.
    What was in the trace stays. *)
Theorem discovery_effects
    (env : Env) (fuel : nat) (st st' : state) (r : res (option pydict)) :
  extract_relevant_metadata env fuel st = Some (r, st') ->
  exists new,
    trace (st_world st') = (new ++ trace (st_world st))%list /\
    Forall (allowed (_apps_url st')) new.
Proof.
  intros H. apply orderly_poll in H as (_ & _ & new & Htrace & Hall & _).
  exists new. split; assumption.
Qed.

Lemma discovery_effects_witness :
  exists r st' new,
    extract_relevant_metadata Demo.ready 1 (Demo.fresh true) = Some (r, st') /\
    trace (st_world st') = (new ++ trace (st_world (Demo.fresh true)))%list /\
    Forall (allowed (_apps_url st')) new.
Proof.
  assert (H : extract_relevant_metadata Demo.ready 1 (Demo.fresh true)
              = Some (Ok (Some _), mkState _ true (Some Demo.apps_url)))
    by (vm_compute; reflexivity).
  destruct (discovery_effects Demo.ready 1 (Demo.fresh true) _ _ H) as (new & Ht & Hall).
  eexists. eexists. exists new. split; [exact H|]. split; assumption.
Defined.

(** ** How much a discovery does *)

Lemma spends_refl (st : state) : spends 0 0 0 0 st st.
Proof. unfold spends. lia. Qed.

Lemma spends_trans (f1 o1 g1 s1 f2 o2 g2 s2 : nat) (a b c : state) :
  spends f1 o1 g1 s1 a b -> spends f2 o2 g2 s2 b c ->
  spends (f1 + f2) (o1 + o2) (g1 + g2) (s1 + s2) a c.
Proof. unfold spends. lia. Qed.

Lemma spends_weaken (f o g s o' g' s' : nat) (a b : state) :
  spends f o g s a b -> (o <= o')%nat -> (g <= g')%nat -> (s <= s')%nat ->
  spends f o' g' s' a b.
Proof. unfold spends. lia. Qed.

Section Spending.
Variable env : Env.

Ltac tally :=
  unfold spends, runs_of, opens_of, gets_of, sleeps_of,
    count_chain_runs, count_opens, count_gets, count_sleeps in *;
  cbn in *; lia.

Lemma spends_log (level : loglevel) (msg : string) (st : state) :
  spends 0 0 0 0 st (snd (log level msg st)).
Proof. tally. Qed.

Lemma spends_isfile (path : string) (st : state) :
  spends 1 0 0 0 st (snd (isfile env path st)).
Proof.
  tally.
Qed.

Lemma spends_time_sleep (secs : Z) (st : state) :
  spends 0 0 0 1 st (snd (time_sleep env secs st)).
Proof.
  tally.
Qed.

Lemma spends_request_get (url : string) (st : state) :
  spends 0 0 1 0 st (snd (_request_get env url st)).
Proof.
  tally.
Qed.

Lemma spends_discover_apps_url (st : state) :
  spends 0 1 0 0 st (snd (_discover_apps_url env st)).
Proof.
  unfold _discover_apps_url, bind, get_apps_url. cbn beta.
  destruct (_apps_url st); [cbn [snd]; eapply spends_weaken; [apply spends_refl|lia..]|].
  unfold get_webui_address, bind, read_file, lift.
  assert (H : spends 0 1 0 0 st (pass env (EvOpen DATABRICKS_METRICS_PROP_PATH) 0 st)).
  { tally. }
  destruct (open_read env (st_world st) DATABRICKS_METRICS_PROP_PATH) as [properties|];
    [|exact H].
  destruct (webui_address_of properties) as [[addr|]|e]; cbn [snd]; exact H.
Qed.

Lemma spends_spark_apps_json (st : state) :
  spends 0 0 1 0 st (snd (_spark_apps_json env st)).
Proof.
  unfold _spark_apps_json, bind, get_apps_url, try_except. cbn beta.
  destruct (_apps_url st) as [[|c url]|];
    try (cbn [snd raise]; eapply spends_weaken; [apply spends_refl|lia..]).
  pose proof (spends_request_get (String c url) st) as H.
  destruct (_request_get env (String c url) st) as [[resp|e] s1]; cbn [snd ret] in *.
  - destruct (json_body resp); [exact H|].
    destruct (PyStr.contains SPARK_STARTING_UP (text resp)); exact H.
  - destruct e; exact H.
Qed.

Lemma spends_spark_app_env_json (app_id : json) (st : state) :
  spends 0 0 1 0 st (snd (_spark_app_env_json env app_id st)).
Proof.
  unfold _spark_app_env_json, bind, get_apps_url, try_except. cbn beta.
  destruct (_apps_url st) as [u|];
    [|cbn [snd raise]; eapply spends_weaken; [apply spends_refl|lia..]].
  pose proof (spends_request_get (u ++ "/" ++ fmt env app_id ++ "/environment") st) as H.
  destruct (_request_get env _ st) as [[resp|e] s1]; cbn [snd ret raise] in *;
    [|exact H].
  destruct (json_body resp); exact H.
Qed.

(** One run of the chain: one test for the file, at most one read of it and
    at most two requests; the chain does not sleep. *)
Lemma spends_cluster_all_tags_metadata (st : state) :
  spends 1 1 2 0 st (snd (_cluster_all_tags_metadata env st)).
Proof.
  unfold _cluster_all_tags_metadata, bind, ret, lift.
  pose proof (spends_isfile DATABRICKS_METRICS_PROP_PATH st) as H1.
  destruct (isfile env DATABRICKS_METRICS_PROP_PATH st) as [[found|?] s1];
    cbn [snd] in *; [|unfold spends in *; lia].
  destruct (negb found); [cbn [snd]; unfold spends in *; lia|].
  pose proof (spends_discover_apps_url s1) as H2.
  destruct (_discover_apps_url env s1) as [[disc|?] s2];
    cbn [snd] in *; [|unfold spends in *; lia].
  destruct (negb disc); [cbn [snd]; unfold spends in *; lia|].
  pose proof (spends_spark_apps_json s2) as H3.
  destruct (_spark_apps_json env s2) as [[apps|?] s3];
    cbn [snd] in *; [|unfold spends in *; lia].
  destruct (Py.is_none apps); [cbn [snd]; unfold spends in *; lia|].
  destruct (Py.len apps) as [n|?]; [|cbn [snd]; unfold spends in *; lia].
  destruct (Nat.eqb n 0).
  { pose proof (spends_log DEBUG "No apps yet, retrying." s3) as H4.
    destruct (log DEBUG "No apps yet, retrying." s3) as [[[]|?] s4];
      cbn [snd] in *; unfold spends in *; lia. }
  destruct (Py.getitem0 apps) as [app|?]; [|cbn [snd]; unfold spends in *; lia].
  destruct (Py.getitem app "id") as [app_id|?]; [|cbn [snd]; unfold spends in *; lia].
  pose proof (spends_spark_app_env_json app_id s3) as H4.
  destruct (_spark_app_env_json env app_id s3) as [[full|?] s4];
    cbn [snd] in *; [|unfold spends in *; lia].
  destruct (metadata_of_env env full); cbn [snd]; unfold spends in *; lia.
Qed.

(** One pass through the loop body runs the chain once and sleeps at most
    once. *)
Lemma spends_loop_body (st : state) : spends 1 1 2 1 st (snd (loop_body env st)).
Proof.
  rewrite loop_body_eq.
  pose proof (spends_cluster_all_tags_metadata st) as H.
  destruct (_cluster_all_tags_metadata env st) as [[props|e] st1]; cbn [snd] in *.
  - destruct (truthy props); cbn [snd].
    + pose proof (spends_log INFO "Successfully got relevant cluster tags metadata" st1).
      unfold logged. unfold spends in *. lia.
    + pose proof (spends_time_sleep RETRY_INTERVAL_S st1).
      unfold slept. unfold spends in *. lia.
  - pose proof (spends_log EXCEPTION (handler_msg e) st1).
    unfold logged. unfold spends in *. lia.
Qed.

Lemma spends_after_loop (st : state) : spends 0 0 0 0 st (snd (after_loop st)).
Proof. rewrite after_loop_eq. apply spends_log. Qed.

(** With [m] seconds left before the deadline the loop makes at most [m]
    passes. *)
Lemma spends_poll (fuel : nat) :
  forall (m : nat) (start_time : Z) (st st' : state) (r : res (option pydict)),
    (DATABRICKS_JOBNAME_TIMEOUT_S * NS_PER_S - (now st - start_time)
       <= Z.of_nat m * NS_PER_S)%Z ->
    poll env fuel start_time st = Some (r, st') ->
    exists f, (f <= m)%nat /\ spends f f (2 * f) f st st'.
Proof.
  induction fuel as [|fuel IH]; intros m start_time st st' r Hrem; cbn [poll];
    fold (now st);
    destruct (Z.ltb_spec (now st - start_time) (DATABRICKS_JOBNAME_TIMEOUT_S * NS_PER_S))
      as [Hlt | Hge].
  - discriminate.
  - intros H. injection H as _ <-. exists 0%nat. split; [lia|apply spends_after_loop].
  - destruct m as [|m]; [unfold DATABRICKS_JOBNAME_TIMEOUT_S, NS_PER_S in *; lia|].
    pose proof (spends_loop_body st) as Hbody.
    destruct (loop_body_ok env st) as (f & st1 & Hrun & Hmono & Hcont).
    rewrite Hrun in *. cbn [snd] in Hbody.
    destruct f as [x| |]; intros H.
    + injection H as _ <-. exists 1%nat. split; [lia|exact Hbody].
    + exists 1%nat. split; [lia|].
      pose proof (spends_after_loop st1) as Hafter.
      destruct (after_loop st1) as [r' st2]. injection H as _ <-.
      cbn [snd] in Hafter. unfold spends in *. lia.
    + specialize (Hcont eq_refl).
      destruct (IH m start_time st1 st' r) as (f & Hf & Hspend).
      * unfold DATABRICKS_JOBNAME_TIMEOUT_S, NS_PER_S in *. lia.
      * exact H.
      * exists (S f). split; [lia|]. unfold spends in *. lia.
  - intros H. injection H as _ <-. exists 0%nat. split; [lia|apply spends_after_loop].
Qed.

End Spending.

(** X6.  A discovery runs the chain at most [MAX_ATTEMPTS] times; for each
    run of the chain there is at most one sleep, one read of the metrics
    file and two GET requests. *)
Theorem discovery_is_bounded
    (env : Env) (fuel : nat) (st st' : state) (r : res (option pydict)) :
  extract_relevant_metadata env fuel st = Some (r, st') ->
  exists attempts,
    (attempts <= MAX_ATTEMPTS)%nat /\
    runs_of st' = (runs_of st + attempts)%nat /\
    (sleeps_of st' <= sleeps_of st + attempts)%nat /\
    (opens_of st' <= opens_of st + attempts)%nat /\
    (gets_of st' <= gets_of st + 2 * attempts)%nat.
Proof.
  intros H. unfold extract_relevant_metadata in H. fold (now st) in H.
  destruct (spends_poll env fuel MAX_ATTEMPTS (now st) st st' r) as (f & Hf & Hs).
  - change (Z.of_nat MAX_ATTEMPTS) with 120%Z.
    unfold DATABRICKS_JOBNAME_TIMEOUT_S, NS_PER_S. lia.
  - exact H.
  - exists f. unfold spends in Hs. repeat split; lia.
Qed.

Lemma discovery_is_bounded_witness :
  exists r st' attempts,
    extract_relevant_metadata Demo.ready 1 (Demo.fresh true) = Some (r, st') /\
    (attempts <= MAX_ATTEMPTS)%nat /\
    runs_of st' = (runs_of (Demo.fresh true) + attempts)%nat /\
    (sleeps_of st' <= sleeps_of (Demo.fresh true) + attempts)%nat /\
    (opens_of st' <= opens_of (Demo.fresh true) + attempts)%nat /\
    (gets_of st' <= gets_of (Demo.fresh true) + 2 * attempts)%nat.
Proof.
  assert (H : extract_relevant_metadata Demo.ready 1 (Demo.fresh true)
              = Some (Ok (Some _), mkState _ true (Some Demo.apps_url)))
    by (vm_compute; reflexivity).
  destruct (discovery_is_bounded Demo.ready 1 (Demo.fresh true) _ _ H) as (n & Hn).
  eexists. eexists. exists n. split; [exact H|exact Hn].
Defined.

(** ** The attempt that ends a discovery *)

Section Ending.
Variable env : Env.

(** Not-ready rounds before the deadline are passed through one by one. *)
Lemma poll_skip (st0 : state) (start_time : Z) (k : nat) :
  enable_retries st0 = true ->
  forall (j fuel : nat),
    (forall i, (j <= i < j + k)%nat -> not_ready env (polls env i st0)) ->
    (forall i, (j <= i < j + k)%nat ->
               (now (polls env i st0) - start_time
                  < DATABRICKS_JOBNAME_TIMEOUT_S * NS_PER_S)%Z) ->
    poll env (k + fuel) start_time (polls env j st0)
      = poll env fuel start_time (polls env (j + k) st0).
Proof.
  intros Hflag. induction k as [|k IH]; intros j fuel Hnr Htime.
  - rewrite Nat.add_0_r. reflexivity.
  - cbn [Nat.add poll]. fold (now (polls env j st0)).
    destruct (Z.ltb_spec (now (polls env j st0) - start_time)
                (DATABRICKS_JOBNAME_TIMEOUT_S * NS_PER_S)) as [_ | Hge].
    + rewrite (loop_body_not_ready env) by (apply Hnr; lia).
      rewrite enable_retries_polls, Hflag, <- polls_S, Nat.add_succ_r.
      apply (IH (S j) fuel).
      * intros i Hi. apply Hnr. lia.
      * intros i Hi. apply Htime. lia.
    + specialize (Htime j). lia.
Qed.

Lemma poll_returns (fuel : nat) (start_time : Z) (st st1 : state) (props : option pydict) :
  (now st - start_time < DATABRICKS_JOBNAME_TIMEOUT_S * NS_PER_S)%Z ->
  _cluster_all_tags_metadata env st = (Ok props, st1) ->
  truthy props = true ->
  poll env (S fuel) start_time st = Some (Ok props, logged INFO SUCCESS_MSG st1).
Proof.
  intros Hlt Hrun Htrue. cbn [poll]. fold (now st).
  destruct (Z.ltb_spec (now st - start_time) (DATABRICKS_JOBNAME_TIMEOUT_S * NS_PER_S));
    [|lia].
  rewrite loop_body_eq, Hrun, Htrue. reflexivity.
Qed.

End Ending.

(** X7.  A discovery ends with the first attempt that is decisive: after
    [n] not-ready attempts, each followed by its sleep, with the deadline
    not yet reached, a non-empty mapping from the next attempt is returned
    as it is, and an exception from it ends the discovery with [None]; in
    both cases nothing more is attempted.  With [n = 0] this holds without
    retries too. *)
Theorem discovery_after_polls (env : Env) (st : state) (n fuel : nat) :
  n = 0%nat \/ enable_retries st = true ->
  (forall i, (i < n)%nat -> not_ready env (polls env i st)) ->
  (now (polls env n st) - now st < DATABRICKS_JOBNAME_TIMEOUT_S * NS_PER_S)%Z ->
  (n < fuel)%nat ->
  (forall props st1,
      _cluster_all_tags_metadata env (polls env n st) = (Ok props, st1) ->
      truthy props = true ->
      extract_relevant_metadata env fuel st
        = Some (Ok props, logged INFO SUCCESS_MSG st1)) /\
  (forall e st1,
      _cluster_all_tags_metadata env (polls env n st) = (Raise e, st1) ->
      extract_relevant_metadata env fuel st
        = Some (Ok None, logged EXCEPTION (handler_msg e) st1)).
Proof.
  intros Hmode Hnr Htime Hfuel.
  assert (Hskip : extract_relevant_metadata env fuel st
                  = poll env (fuel - n) (now st) (polls env n st)).
  { unfold extract_relevant_metadata. fold (now st).
    replace fuel with (n + (fuel - n))%nat at 1 by lia.
    destruct Hmode as [-> | Hflag]; [reflexivity|].
    apply (poll_skip env st (now st) n Hflag 0 (fuel - n)).
    - intros i Hi. apply Hnr. lia.
    - intros i Hi. pose proof (now_polls_mono env st i (n - i)) as Hm.
      replace (i + (n - i))%nat with n in Hm by lia. lia. }
  rewrite Hskip. destruct (fuel - n)%nat as [|f] eqn:Ef; [lia|].
  split.
  - intros props st1 Hrun Htrue. apply poll_returns; assumption.
  - intros e st1 Hrun. apply poll_catches; assumption.
Qed.

Lemma discovery_after_polls_witness :
  (exists d st1,
      extract_relevant_metadata Demo.late 2 (Demo.fresh true)
        = Some (Ok (Some d), logged INFO SUCCESS_MSG st1) /\
      Py.dict_get d JOB_NAME_KEY = Some (JStr "my-job-1")) /\
  (exists st1,
      extract_relevant_metadata (Demo.with_file "not a properties file") 5 (Demo.fresh false)
        = Some (Ok None, logged EXCEPTION "Failed to get DBX environment properties" st1)).
Proof.
  split.
  - assert (Hrun : exists d st1,
               _cluster_all_tags_metadata Demo.late (polls Demo.late 1 (Demo.fresh true))
                 = (Ok (Some d), st1) /\
               truthy (Some d) = true /\
               Py.dict_get d JOB_NAME_KEY = Some (JStr "my-job-1")).
    { eexists. eexists. split; [vm_compute; reflexivity|]. split; reflexivity. }
    destruct Hrun as (d & st1 & Hrun & Htrue & Hname).
    exists d, st1. split; [|exact Hname].
    refine (proj1 (discovery_after_polls Demo.late (Demo.fresh true) 1 2
                     (or_intror eq_refl) _ _ (le_n 2)) (Some d) st1 Hrun Htrue).
    + intros i Hi. destruct i as [|i]; [|inversion Hi as [|? Hi']; inversion Hi'].
      exists None. eexists. split; [vm_compute; reflexivity|reflexivity].
    + vm_compute. reflexivity.
  - eexists.
    refine (proj2 (discovery_after_polls (Demo.with_file "not a properties file")
                     (Demo.fresh false) 0 5 (or_introl eq_refl) _ eq_refl _)
              (webui_address_failure "not a properties file") _ _).
    + intros i Hi. inversion Hi.
    + repeat constructor.
    + vm_compute. reflexivity.
Defined.

(** ** The display name of a discovered mapping *)

Lemma str_get_as_str_dict (d : pydict) (k : string) :
  str_to_str d = true ->
  str_get (as_str_dict d) k =
  match Py.dict_get d k with
  | Some (JStr v) => Some v
  | _ => None
  end.
Proof.
  induction d as [|[k' v'] d IH]; [reflexivity|].
  cbn [str_to_str forallb fst snd]. intros H. apply andb_prop in H as [Hkv Hd].
  apply andb_prop in Hkv as [Hk Hv].
  destruct k' as [| | |a| |]; try discriminate Hk.
  destruct v' as [| | |b| |]; try discriminate Hv.
  cbn [as_str_dict str_get Py.dict_get]. rewrite is_str_JStr.
  destruct (String.eqb a k); [reflexivity|exact (IH Hd)].
Qed.

Lemma nonempty_inv (v : option string) (x : string) : nonempty v = Some x -> v = Some x.
Proof. destruct v as [[|c t]|]; cbn; congruence. Qed.

(** X8.  The display name that [get_name_from_metadata] builds from a
    string-to-string mapping returned by discovery contains no space and no
    capital letter. *)
Theorem display_name_is_name_safe
    (env : Env) (fuel : nat) (st st' : state) (d : pydict) (name : string) :
  extract_relevant_metadata env fuel st = Some (Ok (Some d), st') ->
  str_to_str d = true ->
  get_name_from_metadata (as_str_dict d) = Some name ->
  name_safe name = true.
Proof.
  intros H Hstr Hname.
  apply extract_some_inv in H as (P & _ & H).
  apply tags_metadata_inv in H as (extracted & _ & Ha).
  apply normalized_names in Ha as [Hj Hc].
  assert (Hsafe : forall k x,
             k = JOB_NAME_KEY \/ k = CLUSTER_NAME_KEY ->
             str_get (as_str_dict d) k = Some x -> name_safe x = true).
  { intros k x Hk Hx. rewrite (str_get_as_str_dict d k Hstr) in Hx.
    destruct (Py.dict_get d k) as [v|] eqn:Ev; [|discriminate Hx].
    assert (Hv : exists s, v = JStr s /\ name_safe s = true).
    { destruct Hk as [-> | ->].
      - eapply normalized_name_safe;
          [exact name_safe_normalize_job_name | exact Hj | exact Ev].
      - eapply normalized_name_safe;
          [exact name_safe_normalize_cluster_name | exact Hc | exact Ev]. }
    destruct Hv as (s & -> & Hs). injection Hx as <-. exact Hs. }
  unfold get_name_from_metadata in Hname.
  destruct (nonempty (str_get (as_str_dict d) JOB_NAME_KEY)) as [j|] eqn:Ej.
  - injection Hname as <-. change (name_safe j = true).
    apply (Hsafe JOB_NAME_KEY j); [left; reflexivity|].
    apply nonempty_inv. exact Ej.
  - destruct (nonempty (str_get (as_str_dict d) CLUSTER_NAME_KEY)) as [c|] eqn:Ec;
      [|discriminate Hname].
    injection Hname as <-.
    apply (Hsafe CLUSTER_NAME_KEY c); [right; reflexivity|].
    apply nonempty_inv. exact Ec.
Qed.

Lemma display_name_is_name_safe_witness :
  exists d st',
    extract_relevant_metadata Demo.ready 1 (Demo.fresh true) = Some (Ok (Some d), st') /\
    get_name_from_metadata (as_str_dict d) = Some "job-my-job-1" /\
    name_safe "job-my-job-1" = true.
Proof.
  eexists. eexists. split; [vm_compute; reflexivity|].
  split; [reflexivity|].
  eapply (display_name_is_name_safe Demo.ready 1 (Demo.fresh true)).
  - vm_compute. reflexivity.
  - reflexivity.
  - reflexivity.
Defined.

(** ** [_apply_pattern] on values that are not strings *)

Lemma replace_lower_not_string (v : json) :
  is_string v = false -> Py.replace_lower v = Raise AttributeError.
Proof. destruct v; cbn; congruence. Qed.

Lemma re_sub_run_id_not_string (v : json) :
  is_string v = false -> Py.re_sub_run_id v = Raise TypeError.
Proof. destruct v; cbn; congruence. Qed.

(** X9.  [_apply_pattern] raises [AttributeError] when [RunName] holds a
    value that is not a string, and [TypeError] when [RunName] is fine and
    [ClusterName] holds one; otherwise it succeeds, and a key is bound in
    its result exactly when it was bound in its argument. *)
Theorem apply_pattern_cases (metadata : pydict) :
  (forall v, Py.dict_get metadata JOB_NAME_KEY = Some v -> is_string v = false ->
             _apply_pattern metadata = Raise AttributeError) /\
  (forall v,
      (forall j, Py.dict_get metadata JOB_NAME_KEY = Some j -> is_string j = true) ->
      Py.dict_get metadata CLUSTER_NAME_KEY = Some v -> is_string v = false ->
      _apply_pattern metadata = Raise TypeError) /\
  ((forall j, Py.dict_get metadata JOB_NAME_KEY = Some j -> is_string j = true) ->
   (forall c, Py.dict_get metadata CLUSTER_NAME_KEY = Some c -> is_string c = true) ->
   exists result,
     _apply_pattern metadata = Ok result /\
     forall k, Py.dict_get result k = None <-> Py.dict_get metadata k = None).
Proof.
  assert (NE : JOB_NAME_KEY <> CLUSTER_NAME_KEY) by discriminate.
  split; [|split].
  - intros v Hv Hns. unfold _apply_pattern.
    rewrite Hv, (replace_lower_not_string v Hns). reflexivity.
  - intros v Hj Hv Hns. unfold _apply_pattern.
    destruct (Py.dict_get metadata JOB_NAME_KEY) as [j|] eqn:Ej.
    + specialize (Hj j eq_refl). destruct j; try discriminate Hj.
      cbn [Py.replace_lower rbind]. rewrite dict_get_set_other by exact NE.
      rewrite Hv, (re_sub_run_id_not_string v Hns). reflexivity.
    + cbn [rbind]. rewrite Hv, (re_sub_run_id_not_string v Hns). reflexivity.
  - intros Hj Hc.
    assert (Hok : exists result, _apply_pattern metadata = Ok result).
    { unfold _apply_pattern.
      destruct (Py.dict_get metadata JOB_NAME_KEY) as [j|] eqn:Ej.
      - specialize (Hj j eq_refl). destruct j; try discriminate Hj.
        cbn [Py.replace_lower rbind]. rewrite dict_get_set_other by exact NE.
        destruct (Py.dict_get metadata CLUSTER_NAME_KEY) as [c|] eqn:Ec; [|eauto].
        specialize (Hc c eq_refl). destruct c; try discriminate Hc.
        cbn. eauto.
      - cbn [rbind].
        destruct (Py.dict_get metadata CLUSTER_NAME_KEY) as [c|] eqn:Ec; [|eauto].
        specialize (Hc c eq_refl). destruct c; try discriminate Hc.
        cbn. eauto. }
    destruct Hok as (result & Hres). exists result. split; [exact Hres|].
    apply apply_pattern_inv in Hres as (Hother & Hjob & Hcluster).
    intros k.
    destruct (String.eqb_spec k JOB_NAME_KEY) as [-> | Hkj].
    { destruct (Py.dict_get metadata JOB_NAME_KEY) as [j|].
      - destruct Hjob as (s & _ & ->). split; discriminate.
      - rewrite Hjob. tauto. }
    destruct (String.eqb_spec k CLUSTER_NAME_KEY) as [-> | Hkc].
    { destruct (Py.dict_get metadata CLUSTER_NAME_KEY) as [c|].
      - destruct Hcluster as (s & _ & ->). split; discriminate.
      - rewrite Hcluster. tauto. }
    rewrite (Hother k Hkj Hkc). tauto.
Qed.

Lemma apply_pattern_cases_witness :
  _apply_pattern [(JStr "RunName", JNum "7")] = Raise AttributeError /\
  _apply_pattern [(JStr "ClusterName", JNull); (JStr "RunName", JStr "Nightly")]
    = Raise TypeError /\
  (exists result,
      _apply_pattern [(JStr "ClusterName", JStr "ETL 1"); (JStr "Owner", JNum "7")]
        = Ok result /\
      forall k, Py.dict_get result k = None <->
                Py.dict_get [(JStr "ClusterName", JStr "ETL 1"); (JStr "Owner", JNum "7")] k
                  = None).
Proof.
  split; [|split].
  - exact (proj1 (apply_pattern_cases [(JStr "RunName", JNum "7")])
             (JNum "7") eq_refl eq_refl).
  - refine (proj1 (proj2 (apply_pattern_cases
                            [(JStr "ClusterName", JNull); (JStr "RunName", JStr "Nightly")]))
              JNull _ eq_refl eq_refl).
    intros j Hj. vm_compute in Hj. injection Hj as <-. reflexivity.
  - apply (proj2 (proj2 (apply_pattern_cases
                           [(JStr "ClusterName", JStr "ETL 1"); (JStr "Owner", JNum "7")]))).
    + intros j Hj. vm_compute in Hj. discriminate Hj.
    + intros c Hc. vm_compute in Hc. injection Hc as <-. reflexivity.
Defined.

(** ** The constructor *)

Section Construction.
Variable env : Env.

Lemma loop_body_flag (st : state) :
  enable_retries (snd (loop_body env st)) = enable_retries st.
Proof.
  rewrite loop_body_eq.
  pose proof (steady_cluster_all_tags_metadata env st) as [_ H].
  destruct (_cluster_all_tags_metadata env st) as [[props|e] st1]; cbn [snd] in *.
  - destruct (truthy props); exact H.
  - exact H.
Qed.

Lemma poll_flag (fuel : nat) :
  forall (start_time : Z) (st st' : state) (r : res (option pydict)),
    poll env fuel start_time st = Some (r, st') ->
    enable_retries st' = enable_retries st.
Proof.
  induction fuel as [|fuel IH]; intros start_time st st' r; cbn [poll];
    destruct (_ <? _)%Z; try discriminate;
    try (intros H; injection H as _ <-; reflexivity).
  pose proof (loop_body_flag st) as Hflag.
  destruct (loop_body env st) as [[[x| |]|e] st1]; cbn [snd] in Hflag; intros H.
  - injection H as _ <-. exact Hflag.
  - injection H as _ <-. exact Hflag.
  - rewrite (IH _ _ _ _ H). exact Hflag.
  - injection H as _ <-. exact Hflag.
Qed.

(** A mapping is returned right after the success record is logged, and it
    is not empty. *)
Lemma poll_some_shape (fuel : nat) :
  forall (start_time : Z) (st st' : state) (d : pydict),
    poll env fuel start_time st = Some (Ok (Some d), st') ->
    d <> [] /\ exists st1, st' = logged INFO SUCCESS_MSG st1.
Proof.
  induction fuel as [|fuel IH]; intros start_time st st' d; cbn [poll];
    destruct (_ <? _)%Z; try discriminate.
  rewrite loop_body_eq.
  destruct (_cluster_all_tags_metadata env st) as [[props|e] st1].
  - destruct (truthy props) eqn:T.
    + intros H. injection H as -> <-. split; [|eauto].
      intros ->. discriminate T.
    + destruct (enable_retries st1); [apply IH|discriminate].
  - discriminate.
Qed.

(** Without a mapping, the last thing done is a log record. *)
Lemma poll_none_shape (fuel : nat) :
  forall (start_time : Z) (st st' : state),
    poll env fuel start_time st = Some (Ok None, st') ->
    exists level msg st1, st' = logged level msg st1.
Proof.
  induction fuel as [|fuel IH]; intros start_time st st'; cbn [poll];
    destruct (_ <? _)%Z; try discriminate;
    try (rewrite after_loop_eq; intros H; injection H as <-; eauto).
  rewrite loop_body_eq.
  destruct (_cluster_all_tags_metadata env st) as [[props|e] st1].
  - destruct (truthy props) eqn:T.
    + intros H. injection H as -> <-. eauto.
    + destruct (enable_retries st1); [apply IH|].
      rewrite after_loop_eq. intros H. injection H as <-. eauto.
  - intros H. injection H as <-. eauto.
Qed.

End Construction.

(** X10.  Constructing a [DBXWebUIEnvWrapper] always finishes and never
    raises.  [all_props_dict] is either [None], and then the last thing
    logged is the warning that the service name will lack the metadata, or
    a mapping that is not empty, logged as a success.  The retry flag is the
    one given. *)
Theorem constructor_never_raises (env : Env) (w : world) (retries : bool) (fuel : nat) :
  (MAX_ATTEMPTS <= fuel)%nat ->
  exists obj,
    DBXWebUIEnvWrapper_init env fuel w retries = Some (Ok obj) /\
    enable_retries (self_state obj) = retries /\
    match all_props_dict obj with
    | None =>
        exists rest,
          trace (st_world (self_state obj)) = EvLog WARNING INIT_WARNING :: rest
    | Some d =>
        d <> [] /\
        exists rest,
          trace (st_world (self_state obj)) = EvLog INFO SUCCESS_MSG :: rest
    end.
Proof.
  intros Hfuel. unfold DBXWebUIEnvWrapper_init.
  set (st := snd (log DEBUG "Getting DBX environment properties" (mkState w retries None))).
  destruct (extract_terminates env fuel st Hfuel) as (r & st' & Hrun).
  rewrite Hrun.
  assert (Hflag : enable_retries st' = retries)
    by (rewrite (poll_flag env fuel _ st st' _ Hrun); reflexivity).
  destruct r as [d|].
  - exists (mkWrapper st' (Some d)). split; [reflexivity|]. split; [exact Hflag|].
    cbn [all_props_dict self_state].
    destruct (poll_some_shape env fuel _ st st' d Hrun) as (Hne & st1 & ->).
    split; [exact Hne|]. eexists. reflexivity.
  - eexists. split; [reflexivity|]. split; [exact Hflag|].
    cbn [all_props_dict self_state]. eexists. reflexivity.
Qed.

Lemma constructor_never_raises_witness :
  (exists obj d,
      DBXWebUIEnvWrapper_init Demo.ready MAX_ATTEMPTS (mkWorld 0 []) true = Some (Ok obj) /\
      all_props_dict obj = Some d /\ d <> []) /\
  (exists obj rest,
      DBXWebUIEnvWrapper_init Demo.no_file MAX_ATTEMPTS (mkWorld 0 []) false = Some (Ok obj) /\
      all_props_dict obj = None /\
      trace (st_world (self_state obj)) = EvLog WARNING INIT_WARNING :: rest).
Proof.
  split.
  - destruct (constructor_never_raises Demo.ready (mkWorld 0 []) true MAX_ATTEMPTS (le_n _))
      as (obj & Hinit & _ & Hdict).
    assert (Hsome : exists d, all_props_dict obj = Some d).
    { vm_compute in Hinit. injection Hinit as <-. eexists. reflexivity. }
    destruct Hsome as (d & Hd). rewrite Hd in Hdict.
    exists obj, d. split; [exact Hinit|]. split; [exact Hd|exact (proj1 Hdict)].
  - destruct (constructor_never_raises Demo.no_file (mkWorld 0 []) false MAX_ATTEMPTS (le_n _))
      as (obj & Hinit & _ & Hdict).
    assert (Hnone : all_props_dict obj = None).
    { vm_compute in Hinit. injection Hinit as <-. reflexivity. }
    rewrite Hnone in Hdict. destruct Hdict as (rest & Hrest).
    exists obj, rest. split; [exact Hinit|]. split; [exact Hnone|exact Hrest].
Defined.

(** ** The table of Spark properties *)

Lemma pairs_of_pairs (kvs : list (json * json)) :
  forallb (fun kv => Py.hashable (fst kv)) kvs = true ->
  Py.pairs_of (map (fun kv => JArr [fst kv; snd kv]) kvs) = Ok kvs.
Proof.
  induction kvs as [|[k v] kvs IH]; cbn [forallb map Py.pairs_of]; [reflexivity|].
  intros H. apply andb_prop in H as [Hk Hrest].
  cbn in Hk. cbn. rewrite Hk. cbn. rewrite (IH Hrest). reflexivity.
Qed.

Lemma pairs_of_fail (l : list json) (e : json) (x : exn) :
  In e l -> Py.pair_of e = Raise x -> exists y, Py.pairs_of l = Raise y.
Proof.
  induction l as [|a l IH]; [intros []|].
  intros [->|Hin] He; cbn [Py.pairs_of].
  - rewrite He. eexists. reflexivity.
  - destruct (Py.pair_of a) as [p|y]; cbn; [|eauto].
    destruct (IH Hin He) as (y & ->). cbn. eauto.
Qed.

(** X11.  What lines 179-187 make of the environment of the application:
    anything but an object has no [get] (AttributeError); an object without
    [sparkProperties], or with [null] there, is a discovery failure; a list
    of [[key, value]] pairs with hashable keys becomes the mapping of these
    pairs, later pairs first in the lookup order; a list with an element
    that is not such a pair is the discovery failure of [dict], whatever
    that element raised. *)
Theorem metadata_of_env_cases (env : Env) (full : json) :
  ((forall members, full <> JObj members) ->
   metadata_of_env env full = Raise AttributeError) /\
  (forall members,
     full = JObj members ->
     Py.obj_get members "sparkProperties" = None \/
     Py.obj_get members "sparkProperties" = Some JNull ->
     metadata_of_env env full =
       Raise (DatabricksJobNameDiscoverException
                [Lit "sparkProperties was not found in full_spark_app_env="; Repr full])) /\
  (forall members kvs,
     full = JObj members ->
     Py.obj_get members "sparkProperties" =
       Some (JArr (map (fun kv => JArr [fst kv; snd kv]) kvs)) ->
     forallb (fun kv => Py.hashable (fst kv)) kvs = true ->
     metadata_of_env env full = tags_metadata env (rev kvs)) /\
  (forall members l e x,
     full = JObj members ->
     Py.obj_get members "sparkProperties" = Some (JArr l) ->
     In e l -> Py.pair_of e = Raise x ->
     metadata_of_env env full =
       Raise (DatabricksJobNameDiscoverException
                [Lit "Failed to parse as dict full_spark_app_env="; Repr full])).
Proof.
  unfold metadata_of_env. repeat split.
  - intros Hno. destruct full; try reflexivity. exfalso. eapply Hno. reflexivity.
  - intros members -> [H|H]; cbn; rewrite H; reflexivity.
  - intros members kvs -> H Hkeys. cbn. rewrite H. cbn.
    rewrite (pairs_of_pairs kvs Hkeys). reflexivity.
  - intros members l e x -> H Hin He. cbn. rewrite H. cbn.
    destruct (pairs_of_fail l e x Hin He) as (y & ->). reflexivity.
Qed.

Lemma metadata_of_env_cases_witness :
  metadata_of_env Demo.ready (JArr []) = Raise AttributeError /\
  metadata_of_env Demo.ready (JObj [("runtime", JNull)]) =
    Raise (DatabricksJobNameDiscoverException
             [Lit "sparkProperties was not found in full_spark_app_env=";
              Repr (JObj [("runtime", JNull)])]) /\
  (exists d,
     metadata_of_env Demo.ready
       (JObj [("sparkProperties",
               JArr [JArr [JStr CLUSTER_USAGE_CLUSTER_NAME_PROP; JStr "a"];
                     JArr [JStr CLUSTER_USAGE_CLUSTER_NAME_PROP; JStr "b"]])]) = Ok d /\
     Py.dict_get d CLUSTER_NAME_KEY = Some (JStr "b")) /\
  metadata_of_env Demo.ready
    (JObj [("sparkProperties", JArr [JArr [JStr "k"; JStr "v"]; JNum "7"])]) =
    Raise (DatabricksJobNameDiscoverException
             [Lit "Failed to parse as dict full_spark_app_env=";
              Repr (JObj [("sparkProperties", JArr [JArr [JStr "k"; JStr "v"]; JNum "7"])])]).
Proof.
  split; [|split; [|split]].
  - apply (proj1 (metadata_of_env_cases Demo.ready (JArr []))). discriminate.
  - apply (proj1 (proj2 (metadata_of_env_cases Demo.ready (JObj [("runtime", JNull)])))
             [("runtime", JNull)] eq_refl).
    left. reflexivity.
  - set (kvs := [(JStr CLUSTER_USAGE_CLUSTER_NAME_PROP, JStr "a");
                 (JStr CLUSTER_USAGE_CLUSTER_NAME_PROP, JStr "b")]).
    set (members := [("sparkProperties", JArr (map (fun kv => JArr [fst kv; snd kv]) kvs))]).
    change (exists d, metadata_of_env Demo.ready (JObj members) = Ok d /\
                      Py.dict_get d CLUSTER_NAME_KEY = Some (JStr "b")).
    rewrite (proj1 (proj2 (proj2 (metadata_of_env_cases Demo.ready (JObj members))))
               members kvs eq_refl eq_refl eq_refl).
    vm_compute. eexists. split; reflexivity.
  - set (l := [JArr [JStr "k"; JStr "v"]; JNum "7"]).
    apply (proj2 (proj2 (proj2 (metadata_of_env_cases Demo.ready
                                  (JObj [("sparkProperties", JArr l)]))))
             [("sparkProperties", JArr l)] l (JNum "7") TypeError eq_refl eq_refl).
    + right. left. reflexivity.
    + reflexivity.
Defined.
